(** * Onboarding-and-payment commit protocol of the student onboarding
      dashboard (src/src/App.tsx, src/src/apis/handleFormSubmit.ts and the
      payment client imported from ./apis/HandlePayments).

    The React component is embedded by explicit state passing: the store
    holds the [useState] cells, every handler is a computation over the store
    and an event log, and the answers of the network, the clock, the random
    source and the user are read from a [World] record. *)

From Stdlib Require Import ZArith NArith Ascii String DecimalString.
From stdpp Require Import gmap strings list fin_maps.

Local Open Scope Z_scope.

(* ===================================================================== *)
(** ** JavaScript strings *)
(* ===================================================================== *)

(** A JavaScript string is a sequence of UTF-16 code units. *)
Abbreviation jsstring := (list N).

Definition js (s : string) : jsstring :=
  (fun a => N_of_ascii a) <$> list_ascii_of_string s.

(** [if (s)] on a string: only the empty string is falsy. *)
Definition truthy (s : jsstring) : bool :=
  match s with [] => false | _ => true end.

(** ECMAScript WhiteSpace and LineTerminator code units: what [\s] matches
    and what [String.prototype.trim] strips. *)
Definition isWhiteSpace (c : N) : bool :=
  ((9 <=? c) && (c <=? 13) || (c =? 32) || (c =? 160) || (c =? 5760)
   || (8192 <=? c) && (c <=? 8202) || (c =? 8232) || (c =? 8233)
   || (c =? 8239) || (c =? 8287) || (c =? 12288) || (c =? 65279))%N.

Fixpoint trimStart (s : jsstring) : jsstring :=
  match s with
  | c :: s' => if isWhiteSpace c then trimStart s' else s
  | [] => []
  end.

Definition trim (s : jsstring) : jsstring :=
  rev (trimStart (rev (trimStart s))).

(** [Number.prototype.toString] of an integer, as a template literal
    interpolates it. *)
Definition numberToString (z : Z) : jsstring :=
  js (NilZero.string_of_int (Z.to_int z)).

(* ===================================================================== *)
(** ** Regular expressions (the fragment the validators use) *)
(* ===================================================================== *)

Module Regex.

Inductive regex : Type :=
| Void : regex
| Eps : regex
| Class : (N -> bool) -> regex
| Seq : regex -> regex -> regex
| Alt : regex -> regex -> regex
| Star : regex -> regex.

Fixpoint nullable (r : regex) : bool :=
  match r with
  | Void => false
  | Eps => true
  | Class _ => false
  | Seq a b => nullable a && nullable b
  | Alt a b => nullable a || nullable b
  | Star _ => true
  end.

Fixpoint deriv (c : N) (r : regex) : regex :=
  match r with
  | Void => Void
  | Eps => Void
  | Class p => if p c then Eps else Void
  | Seq a b =>
      if nullable a then Alt (Seq (deriv c a) b) (deriv c b)
      else Seq (deriv c a) b
  | Alt a b => Alt (deriv c a) (deriv c b)
  | Star a => Seq (deriv c a) (Star a)
  end.

(** [/^r$/.test(s)]: the whole string is in the language of [r]. *)
Fixpoint test (r : regex) (s : jsstring) : bool :=
  match s with
  | [] => nullable r
  | c :: s' => test (deriv c r) s'
  end.

(** [r?], [r+], [r{0,n}] and [r{m,n}]. *)
Definition opt (r : regex) : regex := Alt Eps r.
Definition plus (r : regex) : regex := Seq r (Star r).

Fixpoint upto (n : nat) (r : regex) : regex :=
  match n with
  | O => Eps
  | S n' => opt (Seq r (upto n' r))
  end.

Fixpoint exactly (m : nat) (r : regex) : regex :=
  match m with
  | O => Eps
  | S m' => Seq r (exactly m' r)
  end.

Definition between (m n : nat) (r : regex) : regex :=
  Seq (exactly m r) (upto (n - m) r).

Definition chr (a : ascii) : regex := Class (N.eqb (N_of_ascii a)).

End Regex.

Import Regex.

(** [[^\s@]] *)
Definition notSpaceNorAt (c : N) : bool :=
  negb (isWhiteSpace c || (c =? 64)%N).

(** [[0-9]] *)
Definition isDigit (c : N) : bool := ((48 <=? c) && (c <=? 57))%N.

(** [[-\s.]] *)
Definition isSeparator (c : N) : bool :=
  ((c =? 45) || isWhiteSpace c || (c =? 46))%N.

(** [/^[^\s@]+@[^\s@]+\.[^\s@]+$/] *)
Definition emailRe : regex :=
  Seq (plus (Class notSpaceNorAt))
    (Seq (chr "@")
       (Seq (plus (Class notSpaceNorAt))
          (Seq (chr ".") (plus (Class notSpaceNorAt))))).

Definition validateEmail (email : jsstring) : bool := test emailRe email.

(** [/^[+]?[(]?[0-9]{1,4}[)]?[-\s.]?[0-9]{1,4}[-\s.]?[0-9]{1,9}$/] *)
Definition phoneRe : regex :=
  Seq (opt (chr "+"))
    (Seq (opt (chr "("))
       (Seq (between 1 4 (Class isDigit))
          (Seq (opt (chr ")"))
             (Seq (opt (Class isSeparator))
                (Seq (between 1 4 (Class isDigit))
                   (Seq (opt (Class isSeparator))
                      (between 1 9 (Class isDigit)))))))).

Definition validatePhone (phone : jsstring) : bool := test phoneRe phone.

(* ===================================================================== *)
(** ** Dates *)
(* ===================================================================== *)

(** What the code reads of a [Date]: [getFullYear()], [getMonth()] (0 is
    January) and [getDate()], all in local time. *)
Record DateFields : Type := mkDate {
  getFullYear : Z;
  getMonth : Z;
  getDate : Z
}.

(** The clock and the host's date parser.  [newDate s] is [new Date(s)]:
    [None] is an Invalid Date, whose getters all answer NaN. *)
Record Clock : Type := mkClock {
  today : DateFields;
  newDate : jsstring -> option DateFields;
  dateNow : Z
}.

Definition validateDateOfBirth (clk : Clock) (dob : jsstring) : bool :=
  match newDate clk dob with
  | None =>
      (* age and monthDiff are NaN: the decrement is skipped and both
         comparisons of the return are false *)
      false
  | Some birthDate =>
      let age := getFullYear (today clk) - getFullYear birthDate in
      let monthDiff := getMonth (today clk) - getMonth birthDate in
      let age :=
        if (monthDiff <? 0)
           || ((monthDiff =? 0) && (getDate (today clk) <? getDate birthDate))
        then age - 1 else age in
      (5 <=? age) && (age <=? 25)
  end.

(* ===================================================================== *)
(** ** Data model *)
(* ===================================================================== *)

Record FormData : Type := mkFormData {
  firstName : jsstring;
  lastName : jsstring;
  dateOfBirth : jsstring;
  gender : jsstring;
  email : jsstring;
  phone : jsstring;
  address : jsstring;
  grade : jsstring;
  previousSchool : jsstring;
  parentName : jsstring;
  parentEmail : jsstring;
  parentPhone : jsstring;
  relationship : jsstring;
  subjects : list jsstring;
  hobbies : jsstring;
  goals : jsstring;
  password : jsstring;
  course : jsstring
}.

(** [{ ...formData, password: newPassword }] *)
Definition withPassword (d : FormData) (newPassword : jsstring) : FormData :=
  mkFormData (firstName d) (lastName d) (dateOfBirth d) (gender d) (email d)
    (phone d) (address d) (grade d) (previousSchool d) (parentName d)
    (parentEmail d) (parentPhone d) (relationship d) (subjects d) (hobbies d)
    (goals d) newPassword (course d).

(** [useState(...)] initial value of the record. *)
Definition emptyFormData : FormData :=
  mkFormData [] [] [] [] [] [] [] [] [] [] [] [] [] [] [] [] [] [].

(** The string-valued keys of [FormData], as [updateFormData] receives
    them. *)
Inductive Field : Type :=
| FfirstName | FlastName | FdateOfBirth | Fgender | Femail | Fphone
| Faddress | Fgrade | FpreviousSchool | FparentName | FparentEmail
| FparentPhone | Frelationship | Fhobbies | Fgoals | Fpassword | Fcourse.

Definition fieldName (f : Field) : string :=
  match f with
  | FfirstName => "firstName" | FlastName => "lastName"
  | FdateOfBirth => "dateOfBirth" | Fgender => "gender"
  | Femail => "email" | Fphone => "phone" | Faddress => "address"
  | Fgrade => "grade" | FpreviousSchool => "previousSchool"
  | FparentName => "parentName" | FparentEmail => "parentEmail"
  | FparentPhone => "parentPhone" | Frelationship => "relationship"
  | Fhobbies => "hobbies" | Fgoals => "goals" | Fpassword => "password"
  | Fcourse => "course"
  end.

(** [{ ...prev, [field]: value }] *)
Definition setField (f : Field) (v : jsstring) (d : FormData) : FormData :=
  match d with
  | mkFormData a b c e g h i j k l m n o p q r s t =>
      match f with
      | FfirstName => mkFormData v b c e g h i j k l m n o p q r s t
      | FlastName => mkFormData a v c e g h i j k l m n o p q r s t
      | FdateOfBirth => mkFormData a b v e g h i j k l m n o p q r s t
      | Fgender => mkFormData a b c v g h i j k l m n o p q r s t
      | Femail => mkFormData a b c e v h i j k l m n o p q r s t
      | Fphone => mkFormData a b c e g v i j k l m n o p q r s t
      | Faddress => mkFormData a b c e g h v j k l m n o p q r s t
      | Fgrade => mkFormData a b c e g h i v k l m n o p q r s t
      | FpreviousSchool => mkFormData a b c e g h i j v l m n o p q r s t
      | FparentName => mkFormData a b c e g h i j k v m n o p q r s t
      | FparentEmail => mkFormData a b c e g h i j k l v n o p q r s t
      | FparentPhone => mkFormData a b c e g h i j k l m v o p q r s t
      | Frelationship => mkFormData a b c e g h i j k l m n v p q r s t
      | Fhobbies => mkFormData a b c e g h i j k l m n o p v r s t
      | Fgoals => mkFormData a b c e g h i j k l m n o p q v s t
      | Fpassword => mkFormData a b c e g h i j k l m n o p q r v t
      | Fcourse => mkFormData a b c e g h i j k l m n o p q r s v
      end
  end.

(** The [useState] cells of [App]. *)
Record AppState : Type := mkApp {
  currentStep : Z;
  showSuccessModal : bool;
  generatedPassword : jsstring;
  copiedEmail : bool;
  copiedPassword : bool;
  openSelect : option jsstring;
  onLoad : bool;
  errors : gmap string string;
  touched : gmap string bool;
  paymentCompleted : bool;
  formData : FormData
}.

Definition initialState : AppState :=
  mkApp 0 false [] false false None false ∅ ∅ false emptyFormData.

Definition withCurrentStep (v : Z) (s : AppState) : AppState :=
  mkApp v (showSuccessModal s) (generatedPassword s) (copiedEmail s)
    (copiedPassword s) (openSelect s) (onLoad s) (errors s) (touched s)
    (paymentCompleted s) (formData s).
Definition withShowSuccessModal (v : bool) (s : AppState) : AppState :=
  mkApp (currentStep s) v (generatedPassword s) (copiedEmail s)
    (copiedPassword s) (openSelect s) (onLoad s) (errors s) (touched s)
    (paymentCompleted s) (formData s).
Definition withGeneratedPassword (v : jsstring) (s : AppState) : AppState :=
  mkApp (currentStep s) (showSuccessModal s) v (copiedEmail s)
    (copiedPassword s) (openSelect s) (onLoad s) (errors s) (touched s)
    (paymentCompleted s) (formData s).
Definition withOnLoad (v : bool) (s : AppState) : AppState :=
  mkApp (currentStep s) (showSuccessModal s) (generatedPassword s)
    (copiedEmail s) (copiedPassword s) (openSelect s) v (errors s) (touched s)
    (paymentCompleted s) (formData s).
Definition withErrors (v : gmap string string) (s : AppState) : AppState :=
  mkApp (currentStep s) (showSuccessModal s) (generatedPassword s)
    (copiedEmail s) (copiedPassword s) (openSelect s) (onLoad s) v (touched s)
    (paymentCompleted s) (formData s).
Definition withTouched (v : gmap string bool) (s : AppState) : AppState :=
  mkApp (currentStep s) (showSuccessModal s) (generatedPassword s)
    (copiedEmail s) (copiedPassword s) (openSelect s) (onLoad s) (errors s) v
    (paymentCompleted s) (formData s).
Definition withPaymentCompleted (v : bool) (s : AppState) : AppState :=
  mkApp (currentStep s) (showSuccessModal s) (generatedPassword s)
    (copiedEmail s) (copiedPassword s) (openSelect s) (onLoad s) (errors s)
    (touched s) v (formData s).
Definition withFormData (v : FormData) (s : AppState) : AppState :=
  mkApp (currentStep s) (showSuccessModal s) (generatedPassword s)
    (copiedEmail s) (copiedPassword s) (openSelect s) (onLoad s) (errors s)
    (touched s) (paymentCompleted s) v.

(** *** Payment client data (interfaces of HandlePayments and App.tsx) *)

Record RazorpayOrder : Type := mkOrder {
  id : jsstring;
  amount : Z;
  currency : jsstring;
  receipt : option jsstring
}.

Record PaymentData : Type := mkPaymentData {
  razorpay_order_id : jsstring;
  razorpay_payment_id : jsstring;
  razorpay_signature : jsstring
}.

(** [RazorpayResponse] has the fields of [PaymentData]. *)
Abbreviation RazorpayResponse := PaymentData.

Record PaymentVerificationResult : Type := mkVerification {
  success : bool;
  message : jsstring;
  orderId : option jsstring;
  paymentId : option jsstring
}.

(** Body of [POST /payments/make-payment]; [JSON.stringify] leaves a key
    out when its value is [undefined], here [None]. *)
Record OrderRequest : Type := mkOrderRequest {
  req_amount : option Z;
  req_currency : jsstring;
  req_receipt : jsstring;
  customer_name : jsstring;
  customer_email : jsstring
}.

(** Answer of [POST /payments/make-payment]. *)
Record OrderReply : Type := mkOrderReply {
  reply_success : bool;
  reply_order : RazorpayOrder;
  reply_message : option jsstring
}.

Record Prefill : Type := mkPrefill {
  prefill_name : jsstring;
  prefill_email : jsstring;
  prefill_contact : jsstring
}.

(** The data of [RazorpayOptions]; its two callbacks are [handler] and
    [ondismiss] below. *)
Record RazorpayOptions : Type := mkOptions {
  key : jsstring;
  opt_amount : Z;
  opt_currency : jsstring;
  name : jsstring;
  description : jsstring;
  order_id : jsstring;
  prefill : Prefill;
  theme_color : jsstring
}.

(** What [handleFormSubmit] returns when it returns an object. *)
Record SubmitResponse : Type := mkSubmitResponse {
  status : bool;
  statusCode : option Z
}.

(* ===================================================================== *)
(** ** The outside world and the effect monad *)
(* ===================================================================== *)

(** A [fetch] followed by [response.json()]: the parsed body, or a rejection
    carrying the error's message. *)
Inductive Fetched (A : Type) : Type :=
| Body : A -> Fetched A
| Rejected : jsstring -> Fetched A.
Arguments Body {A} _.
Arguments Rejected {A} _.

(** How the account-creation request ends: an HTTP status, no response at
    all, or a value thrown that is no axios error ([Error] or anything
    else). *)
Inductive Transport : Type :=
| HttpStatus : Z -> Transport
| NoResponse : Transport
| RaisedError : jsstring -> Transport
| RaisedValue : jsstring -> Transport.

(** How the promise of [axios.post] settles. *)
Inductive AxiosResult : Type :=
| AxiosResolved : Z -> AxiosResult
| AxiosError : option Z -> AxiosResult
| OtherError : jsstring -> AxiosResult
| OtherValue : jsstring -> AxiosResult.

(** axios with its default [validateStatus]: the promise resolves on a 2xx
    status and rejects with an axios error otherwise; [error.response] is
    missing when no response came. *)
Definition axios_post (t : Transport) : AxiosResult :=
  match t with
  | HttpStatus s =>
      if (200 <=? s) && (s <? 300) then AxiosResolved s
      else AxiosError (Some s)
  | NoResponse => AxiosError None
  | RaisedError m => OtherError m
  | RaisedValue v => OtherValue v
  end.

(** Everything a submission attempt reads from outside the component. *)
Record World : Type := mkWorld {
  clock : Clock;
  (** [Math.floor(Math.random() * chars.length)] at iteration [i] *)
  randomIndex : nat -> nat;
  (** [data.key] of [GET /payments/get-razorpay-key] *)
  keyReply : Fetched (option jsstring);
  (** whether the checkout script fires [onload] rather than [onerror] *)
  scriptLoads : bool;
  orderReply : Fetched OrderReply;
  (** body of [POST /payments/verify-payments]; [None] is a falsy body
      such as [null] *)
  verifyReply : Fetched (option PaymentVerificationResult);
  commitReply : Transport
}.

Inductive Event : Type :=
| FetchKey : Event
| LoadScript : Event
| CreateOrder : OrderRequest -> Event
| OpenCheckout : RazorpayOptions -> Event
| VerifyPayment : PaymentData -> Event
| CreateStudentUser : FormData -> Event
| Alert : jsstring -> Event
| ConsoleError : string -> Event.

(** An open checkout widget: its options and the [finalData] its completion
    handler closed over. *)
Record Checkout : Type := mkCheckout {
  options : RazorpayOptions;
  captured : FormData
}.

Record Sys : Type := mkSys {
  store : AppState;
  log : list Event;
  widget : option Checkout
}.

Inductive Completion (A : Type) : Type :=
| Normal : A -> Completion A
| Throw : jsstring -> Completion A.
Arguments Normal {A} _.
Arguments Throw {A} _.

Definition M (A : Type) : Type := Sys -> Completion A * Sys.

Definition ret {A} (a : A) : M A := fun s => (Normal a, s).

Definition bind {A B} (m : M A) (k : A -> M B) : M B :=
  fun s =>
    match m s with
    | (Normal a, s') => k a s'
    | (Throw e, s') => (Throw e, s')
    end.

Declare Scope js_scope.
Notation "x <- m ;; k" := (bind m (fun x => k))
  (at level 100, m at next level, k at level 200, right associativity)
  : js_scope.
Notation "m ;; k" := (bind m (fun _ => k))
  (at level 100, k at level 200, right associativity) : js_scope.
Local Open Scope js_scope.

Definition throw {A} (e : jsstring) : M A := fun s => (Throw e, s).

(** [try { m } catch (error) { h error }] *)
Definition tryCatch {A} (m : M A) (h : jsstring -> M A) : M A :=
  fun s =>
    match m s with
    | (Normal a, s') => (Normal a, s')
    | (Throw e, s') => h e s'
    end.

(** [try { m } finally { f }] *)
Definition tryFinally {A} (m : M A) (f : M unit) : M A :=
  fun s =>
    match m s with
    | (c, s') =>
        match f s' with
        | (Normal _, s'') => (c, s'')
        | (Throw e, s'') => (Throw e, s'')
        end
    end.

Definition await {A} (r : Fetched A) : M A :=
  match r with
  | Body a => ret a
  | Rejected e => throw e
  end.

Definition emit (e : Event) : M unit :=
  fun s => (Normal tt, mkSys (store s) (log s ++ [e]) (widget s)).

(** A state setter called with an updater function; [setX(v)] is
    [update (withX v)]. *)
Definition update (f : AppState -> AppState) : M unit :=
  fun s => (Normal tt, mkSys (f (store s)) (log s) (widget s)).

Definition setCurrentStep (v : Z) : M unit := update (withCurrentStep v).
Definition setShowSuccessModal (v : bool) : M unit :=
  update (withShowSuccessModal v).
Definition setGeneratedPassword (v : jsstring) : M unit :=
  update (withGeneratedPassword v).
Definition setOnload (v : bool) : M unit := update (withOnLoad v).
Definition setErrors (v : gmap string string) : M unit :=
  update (withErrors v).
Definition setPaymentCompleted (v : bool) : M unit :=
  update (withPaymentCompleted v).

Definition alert (msg : jsstring) : M unit := emit (Alert msg).

(** [new window.Razorpay(options)] followed by [open()]. *)
Definition openCheckout (o : RazorpayOptions) (finalData : FormData)
  : M unit :=
  fun s =>
    (Normal tt,
     mkSys (store s) (log s ++ [OpenCheckout o]) (Some (mkCheckout o finalData))).

(* ===================================================================== *)
(** ** Payment Gateway Client (HandlePayments) *)
(* ===================================================================== *)

Definition fetchRazorpayKey (w : World) : M (option jsstring) :=
  tryCatch
    (emit FetchKey ;;
     data_key <- await (keyReply w) ;;
     ret data_key)
    (fun _ =>
       emit (ConsoleError "Error fetching Razorpay key:") ;;
       ret None).

Definition loadRazorpayScript (w : World) : M bool :=
  emit LoadScript ;;
  ret (scriptLoads w).

Definition createOrder (w : World) (amount : option Z) : M RazorpayOrder :=
  tryCatch
    (emit (CreateOrder
             (mkOrderRequest amount (js "INR")
                (js "receipt_" ++ numberToString (dateNow (clock w)))
                (js "chiranjeevi") (js "test@b2p.com"))) ;;
     data <- await (orderReply w) ;;
     if reply_success data then ret (reply_order data)
     else
       throw (match reply_message data with
              | Some m => if truthy m then m else js "Failed to create order"
              | None => js "Failed to create order"
              end))
    (fun error =>
       emit (ConsoleError "Create order error:") ;;
       throw error).

Definition verifyPayment (w : World) (paymentData : PaymentData)
  : M (option PaymentVerificationResult) :=
  tryCatch
    (emit (VerifyPayment paymentData) ;;
     data <- await (verifyReply w) ;;
     ret data)
    (fun error =>
       emit (ConsoleError "Verify payment error:") ;;
       throw error).

(* ===================================================================== *)
(** ** Submission Committer (handleFormSubmit.ts) *)
(* ===================================================================== *)

(** The function returns [{status, statusCode}], or nothing ([None]) on
    the two branches that only alert. *)
Definition handleFormSubmit (w : World) (datas : FormData)
  : M (option SubmitResponse) :=
  emit (CreateStudentUser datas) ;;
  match axios_post (commitReply w) with
  | AxiosResolved s => ret (Some (mkSubmitResponse true (Some s)))
  | AxiosError s => ret (Some (mkSubmitResponse false s))
  | OtherError m => alert m ;; ret None
  | OtherValue v => alert v ;; ret None
  end.

(* ===================================================================== *)
(** ** The App component (App.tsx) *)
(* ===================================================================== *)

(** [steps.length] *)
Definition steps_length : Z := 6.

Definition chars : jsstring :=
  js "ABCDEFGHIJKLMNOPQRSTUVWXYZabcdefghijklmnopqrstuvwxyz0123456789!@#$%^&*".

(** [s.charAt(i)]: the empty string out of range. *)
Definition charAt (s : jsstring) (i : nat) : jsstring :=
  match s !! i with
  | Some c => [c]
  | None => []
  end.

Definition generatePassword (w : World) : jsstring :=
  foldl (fun password i => password ++ charAt chars (randomIndex w i))
    [] (seq 0 12).

(** The object [newErrors] that [validateStep] builds. *)
Definition newErrors (clk : Clock) (d : FormData) (step : Z)
  : gmap string string :=
  if step =? 0 then
    let e : gmap string string := ∅ in
    let e := if negb (truthy (trim (firstName d)))
             then <["firstName" := "First name is required"]> e else e in
    let e := if negb (truthy (trim (lastName d)))
             then <["lastName" := "Last name is required"]> e else e in
    let e := if negb (truthy (dateOfBirth d))
             then <["dateOfBirth" := "Date of birth is required"]> e
             else if negb (validateDateOfBirth clk (dateOfBirth d))
             then <["dateOfBirth" :=
                     "Please enter a valid date of birth (age 5-25)"]> e
             else e in
    e
  else if step =? 1 then
    let e : gmap string string := ∅ in
    let e := if negb (truthy (email d))
             then <["email" := "Email is required"]> e
             else if negb (validateEmail (email d))
             then <["email" := "Please enter a valid email address"]> e
             else e in
    let e := if truthy (phone d) && negb (validatePhone (phone d))
             then <["phone" := "Please enter a valid phone number"]> e
             else e in
    e
  else if step =? 2 then
    let e : gmap string string := ∅ in
    let e := if negb (truthy (grade d))
             then <["grade" := "Grade is required"]> e else e in
    e
  else if step =? 3 then
    let e : gmap string string := ∅ in
    let e := if negb (truthy (trim (parentName d)))
             then <["parentName" := "Parent/Guardian name is required"]> e
             else e in
    let e := if negb (truthy (parentEmail d))
             then <["parentEmail" := "Parent email is required"]> e
             else if negb (validateEmail (parentEmail d))
             then <["parentEmail" := "Please enter a valid email address"]> e
             else e in
    let e := if negb (truthy (parentPhone d))
             then <["parentPhone" := "Parent phone number is required"]> e
             else if negb (validatePhone (parentPhone d))
             then <["parentPhone" := "Please enter a valid phone number"]> e
             else e in
    e
  else ∅.

(** Every handler below belongs to one render of the component: [r] is the
    state that render closed over ([formData], [currentStep], [errors],
    [paymentCompleted] are read from it), while the setters act on the store
    of the moment. *)

Definition validateStep (w : World) (r : AppState) (step : Z) : M bool :=
  let e := newErrors (clock w) (formData r) step in
  setErrors e ;;
  ret (Nat.eqb (size e) 0).

Definition handleNext (w : World) (r : AppState) : M unit :=
  ok <- validateStep w r (currentStep r) ;;
  if ok && (currentStep r <? steps_length - 1)
  then setCurrentStep (currentStep r + 1)
  else ret tt.

Definition handleBlur (w : World) (r : AppState) (field : string) : M unit :=
  update (fun s => withTouched (<[field := true]> (touched s)) s) ;;
  _ <- validateStep w r (currentStep r) ;;
  ret tt.

Definition handlePrevious (r : AppState) : M unit :=
  if 0 <? currentStep r then setCurrentStep (currentStep r - 1) else ret tt.

Definition updateFormData (r : AppState) (field : Field) (value : jsstring)
  : M unit :=
  update (fun s => withFormData (setField field value (formData s)) s) ;;
  match errors r !! fieldName field with
  | Some (String _ _) =>
      update (fun s => withErrors (delete (fieldName field) (errors s)) s)
  | _ => ret tt
  end.

Definition toggleSubject (subject : jsstring) : M unit :=
  update (fun s =>
    let prev := formData s in
    let subjects' :=
      if bool_decide (subject ∈ subjects prev)
      then filter (fun x => x ≠ subject) (subjects prev)
      else subjects prev ++ [subject] in
    withFormData
      (mkFormData (firstName prev) (lastName prev) (dateOfBirth prev)
         (gender prev) (email prev) (phone prev) (address prev) (grade prev)
         (previousSchool prev) (parentName prev) (parentEmail prev)
         (parentPhone prev) (relationship prev) subjects' (hobbies prev)
         (goals prev) (password prev) (course prev)) s).

Definition handleModalClose : M unit := setShowSuccessModal false.

(** [response?.status] as a condition, and [response?.statusCode === 409]. *)
Definition statusOf (response : option SubmitResponse) : bool :=
  match response with
  | Some x => status x
  | None => false
  end.

Definition statusCodeIs (response : option SubmitResponse) (c : Z) : bool :=
  match response with
  | Some x => match statusCode x with Some s => s =? c | None => false end
  | None => false
  end.

(** The completion [handler] of the checkout options; [finalData] is the
    variable of [handleSubmit] it closed over. *)
Definition handler (w : World) (finalData : FormData)
    (response : RazorpayResponse) : M unit :=
  verificationResult <-
    verifyPayment w
      (mkPaymentData (razorpay_order_id response)
         (razorpay_payment_id response) (razorpay_signature response)) ;;
  match verificationResult with
  | Some _ =>
      setPaymentCompleted true ;;
      submitResponse <- handleFormSubmit w finalData ;;
      (if statusOf submitResponse then setShowSuccessModal true
       else if negb (statusOf submitResponse) && statusCodeIs submitResponse 409
       then
         update (fun prev =>
           withErrors (<["email" := "This email is already registered"]>
                         (errors prev)) prev) ;;
         setCurrentStep 1
       else ret tt) ;;
      setOnload false
  | None => ret tt
  end.

(** [modal.ondismiss] *)
Definition ondismiss : M unit := setOnload false.

(** The loop at the head of [handleSubmit], [n] iterations before
    [i < steps.length] fails; the result is [isValid]. *)
Fixpoint validateAll (w : World) (r : AppState) (n : nat) (i : Z) : M bool :=
  match n with
  | O => ret true
  | S n' =>
      ok <- validateStep w r i ;;
      if negb ok then setCurrentStep i ;; ret false
      else validateAll w r n' (i + 1)
  end.

Definition handleSubmit (w : World) (r : AppState) : M unit :=
  isValid <- validateAll w r (Z.to_nat steps_length) 0 ;;
  if negb isValid then ret tt
  else
    setOnload true ;;
    tryFinally
      (tryCatch
         (let newPassword := generatePassword w in
          setGeneratedPassword newPassword ;;
          let finalData := withPassword (formData r) newPassword in
          if negb (paymentCompleted r) then
            razorPayKey <- fetchRazorpayKey w ;;
            scriptLoaded <- loadRazorpayScript w ;;
            if negb scriptLoaded then
              alert (js "Error Loading RazorPay Script") ;;
              setOnload false
            else
              match razorPayKey with
              | Some (c :: k) =>
                  order <- createOrder w None ;;
                  openCheckout
                    (mkOptions (c :: k) (amount order) (currency order)
                       (js "B2P TEACHERS") (js "100 Days Payment Plan")
                       (id order)
                       (mkPrefill (js "chiranjeevi") (js "test@b2p.com")
                          (js "1234566778909"))
                       (js "#3b82f6"))
                    finalData
              | _ => ret tt
              end
          else
            response <- handleFormSubmit w finalData ;;
            if statusOf response then
              setShowSuccessModal true ;;
              setPaymentCompleted false
            else if negb (statusOf response) && statusCodeIs response 409
            then
              update (fun prev =>
                withErrors (<["email" := "This email is already registered"]>
                              (errors prev)) prev) ;;
              setCurrentStep 1
            else ret tt)
         (fun _ => emit (ConsoleError "Error submitting form:")))
      (setOnload false).

(** *** Running the component *)

(** What the user does with an open checkout widget. *)
Inductive UserChoice : Type :=
| Pays : RazorpayResponse -> UserChoice
| Dismisses : UserChoice
| LeavesOpen : UserChoice.

(** The widget calls one of its two callbacks and closes. *)
Definition resolveCheckout (w : World) (u : UserChoice) : M unit :=
  fun s =>
    match widget s with
    | None => (Normal tt, s)
    | Some c =>
        match u with
        | Pays response =>
            handler w (captured c) response (mkSys (store s) (log s) None)
        | Dismisses => ondismiss (mkSys (store s) (log s) None)
        | LeavesOpen => (Normal tt, s)
        end
    end.

(** A handler is run from the latest render: it closes over the store of
    the moment it is called. *)
Definition fromRender {A} (h : AppState -> M A) : M A :=
  fun s => h (store s) s.

(** One press of "Complete Registration", up to the widget's answer. *)
Definition submitAttempt (w : World) (u : UserChoice) : M unit :=
  fromRender (handleSubmit w) ;;
  resolveCheckout w u.

Inductive Action : Type :=
| Submit : World -> UserChoice -> Action
| Next : World -> Action
| Previous : Action
| Blur : World -> string -> Action
| Change : Field -> jsstring -> Action
| Toggle : jsstring -> Action
| CloseModal : Action.

Definition act (a : Action) : M unit :=
  match a with
  | Submit w u => submitAttempt w u
  | Next w => fromRender (handleNext w)
  | Previous => fromRender handlePrevious
  | Blur w f => fromRender (fun r => handleBlur w r f)
  | Change f v => fromRender (fun r => updateFormData r f v)
  | Toggle x => toggleSubject x
  | CloseModal => handleModalClose
  end.

(** A session: the actions one after the other; an exception escaping a
    callback (an unhandled rejection) does not stop the page. *)
Fixpoint session (l : list Action) (s : Sys) : Sys :=
  match l with
  | [] => s
  | a :: l' => session l' (snd (act a s))
  end.

Definition start (a : AppState) : Sys := mkSys a [] None.

(* ===================================================================== *)
(** ** Specification vocabulary *)
(* ===================================================================== *)

(** The [age] variable of [validateDateOfBirth] at its [return], for a
    valid birth date. *)
Definition ageOn (t birthDate : DateFields) : Z :=
  let age := getFullYear t - getFullYear birthDate in
  let monthDiff := getMonth t - getMonth birthDate in
  if (monthDiff <? 0) || ((monthDiff =? 0) && (getDate t <? getDate birthDate))
  then age - 1 else age.

Module Calendar.

Definition isLeap (y : Z) : bool :=
  ((y mod 4 =? 0) && negb (y mod 100 =? 0)) || (y mod 400 =? 0).

(** Days of month [m], 0 being January. *)
Definition daysInMonth (y m : Z) : Z :=
  if m =? 1 then (if isLeap y then 29 else 28)
  else if (m =? 3) || (m =? 5) || (m =? 8) || (m =? 10) then 30
  else 31.

Definition validDate (d : DateFields) : bool :=
  (0 <=? getMonth d) && (getMonth d <=? 11) && (1 <=? getDate d)
  && (getDate d <=? daysInMonth (getFullYear d) (getMonth d)).

Definition nextDay (d : DateFields) : DateFields :=
  if getDate d <? daysInMonth (getFullYear d) (getMonth d)
  then mkDate (getFullYear d) (getMonth d) (getDate d + 1)
  else if getMonth d <? 11 then mkDate (getFullYear d) (getMonth d + 1) 1
  else mkDate (getFullYear d + 1) 0 1.

Definition prevDay (d : DateFields) : DateFields :=
  if 1 <? getDate d
  then mkDate (getFullYear d) (getMonth d) (getDate d - 1)
  else if 0 <? getMonth d
  then mkDate (getFullYear d) (getMonth d - 1)
         (daysInMonth (getFullYear d) (getMonth d - 1))
  else mkDate (getFullYear d - 1) 11 31.

(** The same month and day [n] years earlier. *)
Definition yearsBefore (n : Z) (d : DateFields) : DateFields :=
  mkDate (getFullYear d - n) (getMonth d) (getDate d).

(** [a] is a day before [b], respectively not after it. *)
Definition before (a b : DateFields) : Prop :=
  getFullYear a < getFullYear b
  \/ (getFullYear a = getFullYear b
      /\ (getMonth a < getMonth b
          \/ (getMonth a = getMonth b /\ getDate a < getDate b))).

Definition notAfter (a b : DateFields) : Prop := before a b \/ a = b.


Definition digitValue (c : N) : option Z :=
  if isDigit c then Some (Z.of_N c - 48) else None.

(** [new Date(s)] on the value of an [<input type="date">]
    ([YYYY-MM-DD]) in a browser whose time zone is UTC; anything else is
    read as an Invalid Date. *)
Definition isoDateOnly (s : jsstring) : option DateFields :=
  match s with
  | [y1; y2; y3; y4; h1; m1; m2; h2; d1; d2] =>
      match digitValue y1, digitValue y2, digitValue y3, digitValue y4,
            digitValue m1, digitValue m2, digitValue d1, digitValue d2 with
      | Some a, Some b, Some c, Some d, Some e, Some f, Some g, Some h =>
          let r := mkDate (1000 * a + 100 * b + 10 * c + d)
                     (10 * e + f - 1) (10 * g + h) in
          if (h1 =? 45)%N && (h2 =? 45)%N && validDate r then Some r
          else None
      | _, _, _, _, _, _, _, _ => None
      end
  | _ => None
  end.

End Calendar.

Import Calendar.

(** The first step among [i, i+1, ..., i+n-1] whose error map is not
    empty. *)
Fixpoint firstInvalid (clk : Clock) (d : FormData) (n : nat) (i : Z)
  : option Z :=
  match n with
  | O => None
  | S n' =>
      if Nat.eqb (size (newErrors clk d i)) 0
      then firstInvalid clk d n' (i + 1)
      else Some i
  end.

(** Every step of the wizard validates. *)
Definition allValid (clk : Clock) (d : FormData) : Prop :=
  forall i, 0 <= i < steps_length -> newErrors clk d i = ∅.

Definition isGatewayCall (e : Event) : bool :=
  match e with
  | FetchKey | LoadScript | CreateOrder _ | OpenCheckout _
  | VerifyPayment _ => true
  | _ => false
  end.

Definition isCommit (e : Event) : bool :=
  match e with CreateStudentUser _ => true | _ => false end.

Definition isAlert (e : Event) : bool :=
  match e with Alert _ => true | _ => false end.

Definition isCreateOrder (e : Event) : bool :=
  match e with CreateOrder _ => true | _ => false end.

(** The tagged outcome of the commit, as the two callers of
    [handleFormSubmit] read its result: [response?.status], then
    [response?.statusCode === 409], then nothing. *)
Inductive SubmissionOutcome : Type :=
| Accepted | DuplicateEmail | TransportFailure.

Definition outcomeOf (response : option SubmitResponse) : SubmissionOutcome :=
  if statusOf response then Accepted
  else if negb (statusOf response) && statusCodeIs response 409
  then DuplicateEmail
  else TransportFailure.

Definition commitOutcome (w : World) : SubmissionOutcome :=
  match commitReply w with
  | HttpStatus s =>
      if (200 <=? s) && (s <? 300) then Accepted
      else if s =? 409 then DuplicateEmail
      else TransportFailure
  | _ => TransportFailure
  end.

(** A submission whose commit is not accepted (any other action
    qualifies). *)
Definition notAccepted (a : Action) : Prop :=
  match a with
  | Submit w _ => commitOutcome w <> Accepted
  | _ => True
  end.

(** The order request and the checkout options of an attempt: functions of
    the world alone. *)
Definition orderRequest (w : World) : OrderRequest :=
  mkOrderRequest None (js "INR")
    (js "receipt_" ++ numberToString (dateNow (clock w)))
    (js "chiranjeevi") (js "test@b2p.com").

Definition checkoutOptions (k : jsstring) (order : RazorpayOrder)
  : RazorpayOptions :=
  mkOptions k (amount order) (currency order) (js "B2P TEACHERS")
    (js "100 Days Payment Plan") (id order)
    (mkPrefill (js "chiranjeevi") (js "test@b2p.com") (js "1234566778909"))
    (js "#3b82f6").

(** The gateway calls of an unpaid attempt that passed validation. *)
Definition gatewayTrace (w : World) : list Event :=
  FetchKey :: LoadScript ::
  (if scriptLoads w then
     match keyReply w with
     | Body (Some (c :: k)) =>
         CreateOrder (orderRequest w) ::
         match orderReply w with
         | Body data =>
             if reply_success data
             then [OpenCheckout (checkoutOptions (c :: k) (reply_order data))]
             else []
         | Rejected _ => []
         end
     | _ => []
     end
   else []).

(** *** Sample inputs *)

Definition sampleClock : Clock :=
  mkClock (mkDate 2026 10 2) isoDateOnly 1793620800000.

Definition sampleRecord : FormData :=
  mkFormData (js "Asha") (js "Rao") (js "2012-04-17") (js "female")
    (js "asha@example.com") (js "+91 9876 543210") (js "12 Lake Road")
    (js "8") (js "Hill School") (js "Meera Rao") (js "meera@example.com")
    (js "9876543210") (js "mother") [js "Math"] (js "chess") (js "learn")
    [] (js "100-days").

Definition sampleOrder : RazorpayOrder :=
  mkOrder (js "order_1") 49900 (js "INR") (Some (js "receipt_1")).

Definition sampleReceipt : RazorpayResponse :=
  mkPaymentData (js "order_1") (js "pay_1") (js "sig_1").

(** Key, script, order and verification succeed; the commit answers
    [reply]. *)
Definition sampleWorld (reply : Transport) : World :=
  mkWorld sampleClock (fun i => ((7 * i + 3) mod 70)%nat)
    (Body (Some (js "rzp_test_key"))) true
    (Body (mkOrderReply true sampleOrder None))
    (Body (Some (mkVerification true (js "Payment verified") None None)))
    reply.

Definition sampleState : AppState :=
  mkApp 5 false [] false false None false ∅ ∅ false sampleRecord.

(** *** Closed forms of a submission (used to state the run lemmas) *)

(** The store once validation passed and the password was drawn. *)
Definition validated (w : World) (a : AppState) : AppState :=
  withGeneratedPassword (generatePassword w)
    (withOnLoad true (withErrors ∅ a)).

(** Events of an unpaid attempt that passed validation. *)
Definition unpaidEvents (w : World) : list Event :=
  FetchKey ::
  (match keyReply w with
   | Body _ => []
   | Rejected _ => [ConsoleError "Error fetching Razorpay key:"]
   end) ++
  LoadScript ::
  (if scriptLoads w then
     match keyReply w with
     | Body (Some (c :: k)) =>
         CreateOrder (orderRequest w) ::
         match orderReply w with
         | Body data =>
             if reply_success data
             then [OpenCheckout (checkoutOptions (c :: k) (reply_order data))]
             else [ConsoleError "Create order error:";
                   ConsoleError "Error submitting form:"]
         | Rejected _ =>
             [ConsoleError "Create order error:";
              ConsoleError "Error submitting form:"]
         end
     | _ => []
     end
   else [Alert (js "Error Loading RazorPay Script")]).

(** The widget an unpaid attempt opens, if it gets that far. *)
Definition openedCheckout (w : World) (finalData : FormData)
  : option Checkout :=
  if scriptLoads w then
    match keyReply w, orderReply w with
    | Body (Some (c :: k)), Body data =>
        if reply_success data
        then Some (mkCheckout (checkoutOptions (c :: k) (reply_order data))
                     finalData)
        else None
    | _, _ => None
    end
  else None.

(** What the paid branch does to the store and the log after the commit
    settled as [res]. *)
Definition paidStore (res : AxiosResult) (a : AppState) : AppState :=
  match res with
  | AxiosResolved _ => withPaymentCompleted false (withShowSuccessModal true a)
  | AxiosError (Some c) =>
      if c =? 409
      then withCurrentStep 1
             (withErrors (<["email" := "This email is already registered"]>
                            (errors a)) a)
      else a
  | _ => a
  end.

Definition commitEvents (res : AxiosResult) (finalData : FormData)
  : list Event :=
  CreateStudentUser finalData ::
  match res with
  | OtherError m => [Alert m]
  | OtherValue v => [Alert v]
  | _ => []
  end.

(** What the completion handler does to the store after the commit settled
    as [res]. *)
Definition handlerStore (res : AxiosResult) (a : AppState) : AppState :=
  match res with
  | AxiosResolved _ => withShowSuccessModal true a
  | AxiosError (Some c) =>
      if c =? 409
      then withCurrentStep 1
             (withErrors (<["email" := "This email is already registered"]>
                            (errors a)) a)
      else a
  | _ => a
  end.

(** A session in which a payment was verified and the commit has not yet
    succeeded. *)
Definition paidSys : Sys := start (withPaymentCompleted true sampleState).

(** The same session with the first name blanked out. *)
Definition blankName : AppState :=
  withFormData (setField FfirstName (js "  ") sampleRecord) sampleState.

(** The key fetch yields a non-empty key. *)
Definition keyUsable (w : World) : bool :=
  match keyReply w with
  | Body (Some (_ :: _)) => true
  | _ => false
  end.

(** The fields of the order request and of the checkout options that are
    literals in the source. *)
Definition literalFields (e : Event) : Prop :=
  match e with
  | CreateOrder b =>
      req_amount b = None
      /\ req_currency b = js "INR"
      /\ customer_name b = js "chiranjeevi"
      /\ customer_email b = js "test@b2p.com"
  | OpenCheckout o =>
      prefill o
      = mkPrefill (js "chiranjeevi") (js "test@b2p.com") (js "1234566778909")
      /\ name o = js "B2P TEACHERS"
      /\ description o = js "100 Days Payment Plan"
  | _ => True
  end.

Definition isVerifyOrCommit (e : Event) : bool :=
  match e with
  | VerifyPayment _ | CreateStudentUser _ => true
  | _ => false
  end.

(** The key endpoint is down, everything else answers. *)
Definition keyDownWorld : World :=
  mkWorld sampleClock (fun i => ((7 * i + 3) mod 70)%nat)
    (Rejected (js "Failed to fetch")) true
    (Body (mkOrderReply true sampleOrder None))
    (Body (Some (mkVerification true (js "Payment verified") None None)))
    (HttpStatus 201).

(** The verification endpoint answers that the signature is wrong. *)
Definition refusedWorld : World :=
  mkWorld sampleClock (fun i => ((7 * i + 3) mod 70)%nat)
    (Body (Some (js "rzp_test_key"))) true
    (Body (mkOrderReply true sampleOrder None))
    (Body (Some (mkVerification false (js "Invalid signature") None None)))
    (HttpStatus 201).

(** The checkout script does not load. *)
Definition scriptDownWorld : World :=
  mkWorld sampleClock (fun i => ((7 * i + 3) mod 70)%nat)
    (Body (Some (js "rzp_test_key"))) false
    (Body (mkOrderReply true sampleOrder None))
    (Body (Some (mkVerification true (js "Payment verified") None None)))
    (HttpStatus 201).

Definition isVerify (e : Event) : bool :=
  match e with VerifyPayment _ => true | _ => false end.

(* ===================================================================== *)
(** ** Run lemmas *)
(* ===================================================================== *)

Arguments js : simpl never.
Arguments generatePassword : simpl never.
Arguments numberToString : simpl never.
Arguments newErrors : simpl never.

(* ===================================================================== *)
(** ** Further specification vocabulary *)
(* ===================================================================== *)

(** The language of a regular expression: what [test] decides. *)
Inductive star (L : jsstring -> Prop) : jsstring -> Prop :=
| star_nil : star L []
| star_app : forall s1 s2, L s1 -> star L s2 -> star L (s1 ++ s2).

Fixpoint lang (r : regex) : jsstring -> Prop :=
  match r with
  | Void => fun _ => False
  | Eps => fun s => s = []
  | Class p => fun s => exists c, s = [c] /\ p c = true
  | Seq a b => fun s => exists s1 s2, s = s1 ++ s2 /\ lang a s1 /\ lang b s2
  | Alt a b => fun s => lang a s \/ lang b s
  | Star a => star (lang a)
  end.

(** Every code unit of [s] is in the class [p]. *)
Definition allIn (p : N -> bool) (s : jsstring) : Prop :=
  Forall (fun c => p c = true) s.

(** [d[field]] for a string-valued key. *)
Definition getField (f : Field) (d : FormData) : jsstring :=
  match f with
  | FfirstName => firstName d | FlastName => lastName d
  | FdateOfBirth => dateOfBirth d | Fgender => gender d
  | Femail => email d | Fphone => phone d | Faddress => address d
  | Fgrade => grade d | FpreviousSchool => previousSchool d
  | FparentName => parentName d | FparentEmail => parentEmail d
  | FparentPhone => parentPhone d | Frelationship => relationship d
  | Fhobbies => hobbies d | Fgoals => goals d | Fpassword => password d
  | Fcourse => course d
  end.

(** [s] is empty or made of white space only. *)
Definition blank (s : jsstring) : bool := forallb isWhiteSpace s.

(** The conditions under which every step of the wizard validates. *)
Definition submittable (clk : Clock) (d : FormData) : Prop :=
  blank (firstName d) = false
  /\ blank (lastName d) = false
  /\ dateOfBirth d <> []
  /\ validateDateOfBirth clk (dateOfBirth d) = true
  /\ validateEmail (email d) = true
  /\ (phone d = [] \/ validatePhone (phone d) = true)
  /\ grade d <> []
  /\ blank (parentName d) = false
  /\ validateEmail (parentEmail d) = true
  /\ validatePhone (parentPhone d) = true.

(** The current step is one of the wizard's steps. *)
Definition stepInRange (a : AppState) : Prop :=
  0 <= currentStep a < steps_length.

(** Every message of the error map is a non-empty string. *)
Definition messagesShown (a : AppState) : Prop :=
  map_Forall (fun (_ : string) (m : string) => m <> EmptyString) (errors a).

(** Every commit call of the log has a verification call at an earlier
    position. *)
Definition verifiedFirst (l : list Event) : Prop :=
  forall i d, l !! i = Some (CreateStudentUser d) ->
    exists j p, (j < i)%nat /\ l !! j = Some (VerifyPayment p).

(** The last step, the one that shows the submit button. *)
Definition lastStepState : AppState := sampleState.

(** A walk through the wizard: blur a field, go forward and back, edit,
    then submit and pay with the commit answering 409. *)
Definition sampleSession : list Action :=
  [Blur (sampleWorld NoResponse) "firstName"; Previous;
   Next (sampleWorld NoResponse); Change Femail (js "asha@example.org");
   Toggle (js "Science");
   Submit (sampleWorld (HttpStatus 409)) (Pays sampleReceipt);
   Change Femail (js "asha2@example.org");
   Submit (sampleWorld NoResponse) LeavesOpen].

(** The commit call [e], if it is one, carries the record [d0] with the
    password [pw]. *)
Definition commitCarries (d0 : FormData) (pw : jsstring) (e : Event) : Prop :=
  match e with
  | CreateStudentUser d => d = withPassword d0 pw
  | _ => True
  end.

(** The order endpoint does not deliver an order. *)
Definition orderFails (w : World) : Prop :=
  match orderReply w with
  | Body data => reply_success data = false
  | Rejected _ => True
  end.

(** Key and script are fine, the order endpoint answers
    [success: false]. *)
Definition orderRefusedWorld : World :=
  mkWorld sampleClock (fun i => ((7 * i + 3) mod 70)%nat)
    (Body (Some (js "rzp_test_key"))) true
    (Body (mkOrderReply false sampleOrder (Some (js "amount missing"))))
    (Body (Some (mkVerification true (js "Payment verified") None None)))
    (HttpStatus 201).

(** Everything answers up to the payment, then the verification request
    is rejected. *)
Definition verifyDownWorld : World :=
  mkWorld sampleClock (fun i => ((7 * i + 3) mod 70)%nat)
    (Body (Some (js "rzp_test_key"))) true
    (Body (mkOrderReply true sampleOrder None))
    (Rejected (js "Failed to fetch"))
    (HttpStatus 201).

(** The payment of this attempt is settled by the time of the commit:
    the flag was already set, or the user pays in the widget this attempt
    opens and the verification request answers with an object. *)
Definition paymentSettled (w : World) (u : UserChoice) (s : Sys) : Prop :=
  paymentCompleted (store s) = true
  \/ (paymentCompleted (store s) = false
      /\ (exists response, u = Pays response)
      /\ (exists v, verifyReply w = Body (Some v))
      /\ openedCheckout w
           (withPassword (formData (store s)) (generatePassword w)) <> None).

(** *** The host's dates *)

(** An instant, given by the UTC calendar day it falls on and the
    milliseconds elapsed since that day's UTC midnight. *)
Record Instant : Type := mkInstant {
  utcDay : DateFields;
  utcMs : Z
}.

Definition msPerDay : Z := 86400000.

(** The local calendar day of an instant where local time is [offset]
    minutes ahead of UTC (negative west of UTC, less than a day either
    way): the day that [getFullYear], [getMonth] and [getDate] read. *)
Definition localDate (offset : Z) (t : Instant) : DateFields :=
  let ms := utcMs t + offset * 60000 in
  if ms <? 0 then prevDay (utcDay t)
  else if ms <? msPerDay then utcDay t
  else nextDay (utcDay t).

(** A browser: the present instant, the offset of local time from UTC in
    force at an instant, and [Date.now()]. *)
Record Host : Type := mkHost {
  nowUtc : Instant;
  offsetAt : Instant -> Z;
  epochMs : Z
}.

(** The clock of a browser. [new Date()] is the present instant;
    [new Date(s)] on a date-only ISO string, the value of an
    [<input type="date">], is the UTC midnight of that day (ECMAScript
    reads the date-only form as UTC); both are read back in local time. *)
Definition hostClock (h : Host) : Clock :=
  mkClock (localDate (offsetAt h (nowUtc h)) (nowUtc h))
    (fun s =>
       match isoDateOnly s with
       | Some day =>
           Some (localDate (offsetAt h (mkInstant day 0)) (mkInstant day 0))
       | None => None
       end)
    (epochMs h).


Definition westHost : Host :=
  mkHost (mkInstant (mkDate 2026 10 2) 54000000) (fun _ => -300)
    1793631600000.

(** Unfolds the monad and the client calls of a run. *)
Ltac run_steps :=
  cbv [negb bind tryFinally tryCatch setOnload setGeneratedPassword update
       ret throw await emit alert store log widget openCheckout
       fetchRazorpayKey loadRazorpayScript createOrder verifyPayment
       handleFormSubmit statusOf statusCodeIs status statusCode
       setShowSuccessModal setPaymentCompleted setCurrentStep setErrors andb
       Z.to_nat steps_length Pos.to_nat Pos.iter_op Nat.add].

Lemma size_zero_empty (e : gmap string string) :
  Nat.eqb (size e) 0 = true <-> e = ∅.
Proof.
  rewrite Nat.eqb_eq. split.
  - apply map_size_empty_inv.
  - intros ->. apply map_size_empty.
Qed.

Lemma firstInvalid_some clk d n i k :
  firstInvalid clk d n i = Some k ->
  i <= k < i + Z.of_nat n
  /\ newErrors clk d k <> ∅
  /\ forall j, i <= j < k -> newErrors clk d j = ∅.
Proof.
  revert i. induction n as [|n IH]; intros i H; [discriminate|].
  cbn [firstInvalid] in H.
  destruct (Nat.eqb (size (newErrors clk d i)) 0) eqn:E.
  - apply size_zero_empty in E.
    destruct (IH _ H) as (Hr & Hne & Hall).
    split; [lia|]. split; [exact Hne|].
    intros j Hj. destruct (Z.eq_dec j i) as [->|]; [exact E|].
    apply Hall. lia.
  - injection H as <-. split; [lia|]. split.
    + intros Hk. apply size_zero_empty in Hk. congruence.
    + intros j Hj. lia.
Qed.

Lemma firstInvalid_none clk d n i :
  firstInvalid clk d n i = None <->
  forall j, i <= j < i + Z.of_nat n -> newErrors clk d j = ∅.
Proof.
  revert i. induction n as [|n IH]; intros i; cbn [firstInvalid].
  - split; [intros _ j Hj; lia | reflexivity].
  - destruct (Nat.eqb (size (newErrors clk d i)) 0) eqn:E.
    + apply size_zero_empty in E. rewrite IH. split.
      * intros H j Hj. destruct (Z.eq_dec j i) as [->|]; [exact E|].
        apply H. lia.
      * intros H j Hj. apply H. lia.
    + split; [discriminate|]. intros H.
      assert (newErrors clk d i = ∅) as Hi by (apply H; lia).
      apply size_zero_empty in Hi. congruence.
Qed.

Lemma allValid_firstInvalid clk d :
  allValid clk d <-> firstInvalid clk d (Z.to_nat steps_length) 0 = None.
Proof.
  rewrite firstInvalid_none. unfold allValid, steps_length. cbn.
  split; intros H j Hj; apply H; lia.
Qed.

Lemma validateAll_run w r n i s :
  validateAll w r n i s =
  match firstInvalid (clock w) (formData r) n i with
  | Some k =>
      (Normal false,
       mkSys (withCurrentStep k
                (withErrors (newErrors (clock w) (formData r) k) (store s)))
         (log s) (widget s))
  | None =>
      (Normal true,
       match n with
       | O => s
       | S _ => mkSys (withErrors ∅ (store s)) (log s) (widget s)
       end)
  end.
Proof.
  revert i s. induction n as [|n IH]; intros i s; [reflexivity|].
  cbn [validateAll firstInvalid].
  unfold bind at 1. unfold validateStep at 1. unfold bind at 1.
  cbn [setErrors update ret].
  destruct (Nat.eqb (size (newErrors (clock w) (formData r) i)) 0) eqn:E;
    cbn [negb].
  - rewrite IH. apply size_zero_empty in E.
    destruct (firstInvalid (clock w) (formData r) n (i + 1)); [reflexivity|].
    destruct n; cbn; rewrite ?E; reflexivity.
  - reflexivity.
Qed.

Lemma handleSubmit_invalid w r s k :
  firstInvalid (clock w) (formData r) (Z.to_nat steps_length) 0 = Some k ->
  handleSubmit w r s =
  (Normal tt,
   mkSys (withCurrentStep k
            (withErrors (newErrors (clock w) (formData r) k) (store s)))
     (log s) (widget s)).
Proof.
  intros H. unfold handleSubmit, bind at 1.
  rewrite validateAll_run, H. reflexivity.
Qed.

Lemma handleSubmit_paid w r s :
  firstInvalid (clock w) (formData r) (Z.to_nat steps_length) 0 = None ->
  paymentCompleted r = true ->
  handleSubmit w r s =
  (Normal tt,
   mkSys (withOnLoad false
            (paidStore (axios_post (commitReply w)) (validated w (store s))))
     (log s ++ commitEvents (axios_post (commitReply w))
                (withPassword (formData r) (generatePassword w)))
     (widget s)).
Proof.
  intros H Hp. unfold handleSubmit, bind at 1.
  rewrite validateAll_run, H, Hp.
  destruct (axios_post (commitReply w)) as [c|[c|]|m|m] eqn:E.
  all: cbv [negb bind tryFinally tryCatch setOnload setGeneratedPassword
         update ret handleFormSubmit emit alert store log widget
         Z.to_nat steps_length Pos.to_nat Pos.iter_op Nat.add
         statusOf statusCodeIs status statusCode setShowSuccessModal
         setPaymentCompleted setCurrentStep andb];
    rewrite ?E;
    cbv [negb bind tryFinally tryCatch setOnload setGeneratedPassword
         update ret handleFormSubmit emit alert store log widget
         statusOf statusCodeIs status statusCode setShowSuccessModal
         setPaymentCompleted setCurrentStep andb commitEvents paidStore];
    rewrite <- ?app_assoc; try reflexivity.
  destruct (c =? 409); reflexivity.
Qed.

Lemma handleSubmit_unpaid w r s :
  firstInvalid (clock w) (formData r) (Z.to_nat steps_length) 0 = None ->
  paymentCompleted r = false ->
  handleSubmit w r s =
  (Normal tt,
   mkSys (withOnLoad false (validated w (store s)))
     (log s ++ unpaidEvents w)
     (match openedCheckout w (withPassword (formData r) (generatePassword w))
      with
      | Some c => Some c
      | None => widget s
      end)).
Proof.
  intros H Hp. unfold handleSubmit, bind at 1.
  rewrite validateAll_run, H, Hp.
  unfold unpaidEvents, openedCheckout, orderRequest, checkoutOptions.
  destruct (keyReply w) as [[[|c k]|]|e] eqn:Ek;
    destruct (scriptLoads w) eqn:Es;
    run_steps; rewrite ?Ek, ?Es; run_steps;
    try (rewrite <- ?app_assoc; reflexivity).
  destruct (orderReply w) as [data|e] eqn:Eo; run_steps;
    [destruct (reply_success data) eqn:Ed; run_steps|];
    rewrite <- ?app_assoc; reflexivity.
Qed.

Lemma gatewayTrace_unpaidEvents w :
  filter (fun e => isGatewayCall e = true) (unpaidEvents w) = gatewayTrace w.
Proof.
  unfold unpaidEvents, gatewayTrace.
  destruct (keyReply w) as [[[|c k]|]|e]; destruct (scriptLoads w);
    try reflexivity;
    destruct (orderReply w) as [data|e']; try reflexivity;
    destruct (reply_success data); reflexivity.
Qed.

Lemma commitEvents_no_gateway res d :
  filter (fun e => isGatewayCall e = true) (commitEvents res d) = [].
Proof. destruct res; reflexivity. Qed.

Lemma commitEvents_commit res d :
  filter (fun e => isCommit e = true) (commitEvents res d)
  = [CreateStudentUser d].
Proof. destruct res; reflexivity. Qed.

(** The branch conditions of the two callers agree with the tagged
    outcome. *)
Lemma commitOutcome_axios w :
  commitOutcome w =
  match axios_post (commitReply w) with
  | AxiosResolved _ => Accepted
  | AxiosError (Some c) => if c =? 409 then DuplicateEmail else TransportFailure
  | _ => TransportFailure
  end.
Proof.
  unfold commitOutcome, axios_post.
  destruct (commitReply w) as [c| | |]; try reflexivity.
  destruct ((200 <=? c) && (c <? 300)); reflexivity.
Qed.

Lemma paidStore_flag w a :
  commitOutcome w <> Accepted ->
  paymentCompleted (paidStore (axios_post (commitReply w)) a)
  = paymentCompleted a.
Proof.
  rewrite commitOutcome_axios.
  destruct (axios_post (commitReply w)) as [c|[c|]|m|m]; cbn;
    try congruence; try reflexivity.
  destruct (c =? 409); reflexivity.
Qed.

(** An action other than a submission writes neither the log, nor the
    widget, nor the payment flag. *)
Lemma act_other_frame a s :
  match a with Submit _ _ => False | _ => True end ->
  log (snd (act a s)) = log s
  /\ widget (snd (act a s)) = widget s
  /\ paymentCompleted (store (snd (act a s))) = paymentCompleted (store s).
Proof.
  destruct a as [w u|w| |w f|f v|x|]; intros Ha; try contradiction;
    cbn [act]; unfold fromRender.
  - unfold handleNext, validateStep. run_steps.
    match goal with |- context [if ?b then _ else _] => destruct b end; auto.
  - unfold handlePrevious.
    match goal with |- context [if ?b then _ else _] => destruct b end; auto.
  - unfold handleBlur, validateStep. run_steps. auto.
  - unfold updateFormData.
    destruct (errors (store s) !! fieldName f) as [[|? ?]|]; run_steps; auto.
  - unfold toggleSubject. run_steps. cbn. auto.
  - unfold handleModalClose. run_steps. cbn. auto.
Qed.

Lemma handler_run w finalData response s :
  handler w finalData response s =
  match verifyReply w with
  | Rejected e =>
      (Throw e,
       mkSys (store s)
         (log s ++ [VerifyPayment response;
                    ConsoleError "Verify payment error:"])
         (widget s))
  | Body None =>
      (Normal tt, mkSys (store s) (log s ++ [VerifyPayment response]) (widget s))
  | Body (Some _) =>
      (Normal tt,
       mkSys (withOnLoad false
                (handlerStore (axios_post (commitReply w))
                   (withPaymentCompleted true (store s))))
         (log s ++ VerifyPayment response
              :: commitEvents (axios_post (commitReply w)) finalData)
         (widget s))
  end.
Proof.
  unfold handler. destruct response as [o p g]. cbn [razorpay_order_id
    razorpay_payment_id razorpay_signature].
  destruct (verifyReply w) as [[v|]|e] eqn:Ev; run_steps; rewrite ?Ev;
    run_steps; rewrite <- ?app_assoc; try reflexivity.
  destruct (axios_post (commitReply w)) as [c|[c|]|m|m] eqn:E; run_steps;
    rewrite ?E; unfold commitEvents, handlerStore; run_steps;
    rewrite <- ?app_assoc; try reflexivity.
  destruct (c =? 409); reflexivity.
Qed.

(** A submission pressed with the payment flag set and no widget open. *)
Lemma submit_paid w u s :
  paymentCompleted (store s) = true ->
  widget s = None ->
  snd (act (Submit w u) s) =
  match firstInvalid (clock w) (formData (store s)) (Z.to_nat steps_length) 0
  with
  | Some k =>
      mkSys (withCurrentStep k
               (withErrors (newErrors (clock w) (formData (store s)) k)
                  (store s)))
        (log s) None
  | None =>
      mkSys (withOnLoad false
               (paidStore (axios_post (commitReply w))
                  (validated w (store s))))
        (log s ++ commitEvents (axios_post (commitReply w))
                   (withPassword (formData (store s)) (generatePassword w)))
        None
  end.
Proof.
  intros Hp Hw. cbn [act]. unfold submitAttempt, fromRender, bind.
  destruct (firstInvalid _ _ _ 0) as [k|] eqn:E.
  - rewrite (handleSubmit_invalid _ _ _ _ E). unfold resolveCheckout.
    cbn [widget]. rewrite Hw. reflexivity.
  - rewrite (handleSubmit_paid _ _ _ E Hp). unfold resolveCheckout.
    cbn [widget]. rewrite Hw. reflexivity.
Qed.

(** With the flag set, a whole session of submissions whose commit is not
    accepted, interleaved with any other actions, makes no gateway call and
    keeps the flag. *)
Lemma session_paid_no_gateway l : forall s,
  paymentCompleted (store s) = true ->
  widget s = None ->
  Forall notAccepted l ->
  exists evs,
    log (session l s) = log s ++ evs
    /\ filter (fun e => isGatewayCall e = true) evs = []
    /\ paymentCompleted (store (session l s)) = true
    /\ widget (session l s) = None.
Proof.
  induction l as [|a l IH]; intros s Hp Hw Hl.
  - exists []. rewrite app_nil_r. auto.
  - apply Forall_cons in Hl as [Ha Hl]. cbn [session].
    assert (exists e1,
      log (snd (act a s)) = log s ++ e1
      /\ filter (fun e => isGatewayCall e = true) e1 = []
      /\ paymentCompleted (store (snd (act a s))) = true
      /\ widget (snd (act a s)) = None) as (e1 & H1 & G1 & P1 & W1).
    { destruct a as [w u|w| |w f|f v|x|].
      2-7: match goal with |- context [act ?a ?s0] =>
             destruct (act_other_frame a s0 I) as (L & W & P) end;
           exists []; rewrite L, W, P, app_nil_r; auto.
      rewrite (submit_paid w u s Hp Hw).
      destruct (firstInvalid _ _ _ 0) as [k|].
      - exists []. cbn. rewrite app_nil_r. auto.
      - eexists. cbn [log store widget]. split; [reflexivity|].
        split; [apply commitEvents_no_gateway|]. split; [|reflexivity].
        cbn in Ha. change (paymentCompleted
          (paidStore (axios_post (commitReply w)) (validated w (store s)))
          = true).
        rewrite (paidStore_flag w _ Ha). exact Hp. }
    destruct (IH _ P1 W1 Hl) as (e2 & H2 & G2 & P2 & W2).
    exists (e1 ++ e2). rewrite H2, H1, app_assoc, filter_app, G1, G2. auto.
Qed.

(* ===================================================================== *)
(** ** The claims *)
(* ===================================================================== *)

(** C1. With PaymentCompletedFlag set, Submit makes no call to
    fetchPublicKey, loadCheckoutWidget, createOrder or verifyPayment: once
    the record validates, the first thing it does is the one commit call;
    and over any further session of submissions whose commit ends in
    DuplicateEmail or TransportFailure, mixed with edits and navigation, no
    gateway call is made and the flag stays set, so no second charge can
    occur. *)
Theorem paid_submit_goes_straight_to_commit (s : Sys) :
  paymentCompleted (store s) = true ->
  widget s = None ->
  (forall w u, exists evs,
      log (snd (act (Submit w u) s)) = log s ++ evs
      /\ filter (fun e => isGatewayCall e = true) evs = []
      /\ (allValid (clock w) (formData (store s)) ->
          exists rest,
            evs = CreateStudentUser
                    (withPassword (formData (store s)) (generatePassword w))
                  :: rest
            /\ filter (fun e => isCommit e = true) rest = []))
  /\ (forall l, Forall notAccepted l -> exists evs,
         log (session l s) = log s ++ evs
         /\ filter (fun e => isGatewayCall e = true) evs = []
         /\ paymentCompleted (store (session l s)) = true).
Proof.
  intros Hp Hw. split.
  - intros w u. rewrite (submit_paid w u s Hp Hw).
    destruct (firstInvalid _ _ _ 0) as [k|] eqn:E.
    + exists []. cbn [log]. rewrite app_nil_r. repeat split.
      intros Hv. apply allValid_firstInvalid in Hv. congruence.
    + eexists. cbn [log]. split; [reflexivity|].
      split; [apply commitEvents_no_gateway|].
      intros _. eexists. split; [reflexivity|].
      destruct (axios_post (commitReply w)); reflexivity.
  - intros l Hl.
    destruct (session_paid_no_gateway l s Hp Hw Hl) as (evs & H1 & H2 & H3 & _).
    exists evs. auto.
Qed.

Lemma paid_submit_goes_straight_to_commit_witness :
  paymentCompleted (store paidSys) = true
  /\ widget paidSys = None
  /\ (forall l, Forall notAccepted l -> exists evs,
         log (session l paidSys) = log paidSys ++ evs
         /\ filter (fun e => isGatewayCall e = true) evs = []
         /\ paymentCompleted (store (session l paidSys)) = true).
Proof.
  split; [reflexivity|]. split; [reflexivity|].
  apply (paid_submit_goes_straight_to_commit paidSys); reflexivity.
Defined.

(** C4. When some step of the record has a non-empty error map, Submit
    validates the steps in order, puts the current step on the first
    invalid one (showing its errors) and returns there: the log is
    unchanged, so no gateway operation and no commit call was made, and
    no widget was opened. *)
Theorem submit_invalid_aborts (w : World) (r : AppState) (s : Sys) :
  (exists i, 0 <= i < steps_length
             /\ newErrors (clock w) (formData r) i <> ∅) ->
  exists k,
    0 <= k < steps_length
    /\ newErrors (clock w) (formData r) k <> ∅
    /\ (forall j, 0 <= j < k -> newErrors (clock w) (formData r) j = ∅)
    /\ handleSubmit w r s =
       (Normal tt,
        mkSys (withCurrentStep k
                 (withErrors (newErrors (clock w) (formData r) k) (store s)))
          (log s) (widget s)).
Proof.
  intros (i & Hi & Hne).
  destruct (firstInvalid (clock w) (formData r) (Z.to_nat steps_length) 0)
    as [k|] eqn:E.
  - destruct (firstInvalid_some _ _ _ _ _ E) as (Hk & Hk' & Hall).
    exists k. split; [exact Hk|]. split; [exact Hk'|]. split; [exact Hall|].
    apply handleSubmit_invalid, E.
  - apply allValid_firstInvalid in E. elim Hne. apply E, Hi.
Qed.

Lemma submit_invalid_aborts_witness :
  exists k,
    0 <= k < steps_length
    /\ newErrors sampleClock (formData blankName) k <> ∅
    /\ (forall j, 0 <= j < k ->
        newErrors sampleClock (formData blankName) j = ∅)
    /\ handleSubmit (sampleWorld NoResponse) blankName (start blankName) =
       (Normal tt,
        mkSys (withCurrentStep k
                 (withErrors (newErrors sampleClock (formData blankName) k)
                    (store (start blankName))))
          (log (start blankName)) (widget (start blankName))).
Proof.
  apply (submit_invalid_aborts (sampleWorld NoResponse) blankName
           (start blankName)).
  exists 0. split; [unfold steps_length; lia|].
  intros H. apply size_zero_empty in H. vm_compute in H. discriminate H.
Defined.

(** C9. validateStep replaces the error map by the map freshly computed
    for the step, whatever the map held before (nothing else in the store,
    log or widget changes); it answers true exactly when the new map is
    empty; and for the steps without mandatory fields, 4 (interests) and 5
    (payment plan), the new map is empty. *)
Theorem validateStep_replaces_errors
    (w : World) (r : AppState) (step : Z) (s : Sys) :
  exists ok,
    validateStep w r step s =
      (Normal ok,
       mkSys (withErrors (newErrors (clock w) (formData r) step) (store s))
         (log s) (widget s))
    /\ errors (store (snd (validateStep w r step s)))
       = newErrors (clock w) (formData r) step
    /\ (ok = true <-> newErrors (clock w) (formData r) step = ∅)
    /\ newErrors (clock w) (formData r) 4 = ∅
    /\ newErrors (clock w) (formData r) 5 = ∅.
Proof.
  exists (Nat.eqb (size (newErrors (clock w) (formData r) step)) 0).
  split; [reflexivity|]. split; [reflexivity|].
  split; [apply size_zero_empty|]. split; reflexivity.
Qed.

(** C5, as the code has it. Whatever the record and however the
    account-creation request ends, handleFormSubmit issues the request
    once and completes normally (no exception leaves it). On an HTTP answer
    it resolves to an object: status true with the status code on 2xx,
    status false with the status code otherwise, and status false with no
    code when no answer came; its callers read these as Accepted,
    as DuplicateEmail when the code is 409 and as TransportFailure
    otherwise. On an error that is no axios error it shows an alert with
    the error's text and resolves to undefined: no typed outcome. *)
Theorem handleFormSubmit_outcomes
    (w : World) (datas : FormData) (s : Sys) :
  handleFormSubmit w datas s
  = (Normal
       (match commitReply w with
        | HttpStatus c =>
            Some (mkSubmitResponse ((200 <=? c) && (c <? 300)) (Some c))
        | NoResponse => Some (mkSubmitResponse false None)
        | RaisedError _ => None
        | RaisedValue _ => None
        end),
     mkSys (store s)
       (log s ++ CreateStudentUser datas
              :: match commitReply w with
                 | RaisedError m => [Alert m]
                 | RaisedValue v => [Alert v]
                 | _ => []
                 end)
       (widget s))
  /\ match fst (handleFormSubmit w datas s) with
     | Normal (Some r) =>
         outcomeOf (Some r) = commitOutcome w
         /\ (status r = true <-> commitOutcome w = Accepted)
         /\ (statusCode r = Some 409 <-> commitOutcome w = DuplicateEmail)
     | Normal None =>
         commitOutcome w = TransportFailure
         /\ exists m, commitReply w = RaisedError m
                      \/ commitReply w = RaisedValue m
     | Throw _ => False
     end.
Proof.
  unfold handleFormSubmit, commitOutcome, axios_post, outcomeOf.
  destruct (commitReply w) as [c| |m|m];
    [destruct ((200 <=? c) && (c <? 300)) eqn:E|..]; run_steps;
    (split; [rewrite <- ?app_assoc; reflexivity|]); cbn.
  - repeat split; try discriminate; try reflexivity.
    intros [= ->]. discriminate E.
  - destruct (c =? 409) eqn:E9.
    + apply Z.eqb_eq in E9. subst c.
      repeat split; try discriminate; reflexivity.
    + apply Z.eqb_neq in E9.
      repeat split; try discriminate; try reflexivity.
      intros [= ->]. congruence.
  - repeat split; discriminate.
  - split; [reflexivity|]. exists m. auto.
  - split; [reflexivity|]. exists m. auto.
Qed.

(** C5, counterexample to the claim as worded: the request throws an
    error that is no axios error; the function alerts and resolves to
    undefined, which carries no outcome. *)
Lemma handleFormSubmit_resolves_undefined :
  handleFormSubmit (sampleWorld (RaisedError (js "Network down")))
    sampleRecord (start sampleState)
  = (Normal None,
     mkSys sampleState
       [CreateStudentUser sampleRecord; Alert (js "Network down")] None).
Proof. reflexivity. Qed.

(** A submission pressed without the payment flag, on a valid record, with
    no widget open. *)
Lemma submit_unpaid w u s :
  firstInvalid (clock w) (formData (store s)) (Z.to_nat steps_length) 0 = None ->
  paymentCompleted (store s) = false ->
  widget s = None ->
  let finalData := withPassword (formData (store s)) (generatePassword w) in
  let s1 := mkSys (withOnLoad false (validated w (store s)))
              (log s ++ unpaidEvents w) None in
  snd (act (Submit w u) s) =
  match openedCheckout w finalData with
  | None => s1
  | Some c =>
      match u with
      | Pays response => snd (handler w (captured c) response s1)
      | Dismisses => snd (ondismiss s1)
      | LeavesOpen => mkSys (store s1) (log s1) (Some c)
      end
  end.
Proof.
  intros E Hp Hw finalData s1. cbn [act].
  unfold submitAttempt, fromRender, bind.
  rewrite (handleSubmit_unpaid _ _ _ E Hp). fold finalData.
  unfold resolveCheckout. cbn [widget store log]. rewrite Hw.
  destruct (openedCheckout w finalData) as [c|]; [|reflexivity].
  destruct u; reflexivity.
Qed.

Lemma openedCheckout_captured w d c :
  openedCheckout w d = Some c -> captured c = d.
Proof.
  unfold openedCheckout.
  destruct (scriptLoads w); [|discriminate].
  destruct (keyReply w) as [[[|? ?]|]|?]; try discriminate.
  destruct (orderReply w) as [data|?]; try discriminate.
  destruct (reply_success data); [|discriminate].
  intros H. injection H as <-. reflexivity.
Qed.

Lemma unpaidEvents_no_verify_commit w :
  filter (fun e => isVerifyOrCommit e = true) (unpaidEvents w) = [].
Proof.
  unfold unpaidEvents.
  destruct (keyReply w) as [[[|c k]|]|e]; destruct (scriptLoads w);
    try reflexivity;
    destruct (orderReply w) as [data|e']; try reflexivity;
    destruct (reply_success data); reflexivity.
Qed.

(** C10. The dismissal handler writes the busy indicator and nothing else;
    so when a valid, unpaid submission ends with the user dismissing the
    widget, PaymentCompletedFlag is still false, the current step, the
    success modal and the record are as before, the busy indicator is
    false, and neither a verification nor a commit call was made. *)
Theorem dismissal_clears_only_busy (w : World) (s : Sys) :
  paymentCompleted (store s) = false ->
  widget s = None ->
  allValid (clock w) (formData (store s)) ->
  (forall s0,
      ondismiss s0
      = (Normal tt, mkSys (withOnLoad false (store s0)) (log s0) (widget s0)))
  /\ paymentCompleted (store (snd (act (Submit w Dismisses) s))) = false
  /\ currentStep (store (snd (act (Submit w Dismisses) s)))
     = currentStep (store s)
  /\ onLoad (store (snd (act (Submit w Dismisses) s))) = false
  /\ showSuccessModal (store (snd (act (Submit w Dismisses) s)))
     = showSuccessModal (store s)
  /\ formData (store (snd (act (Submit w Dismisses) s))) = formData (store s)
  /\ widget (snd (act (Submit w Dismisses) s)) = None
  /\ exists evs,
       log (snd (act (Submit w Dismisses) s)) = log s ++ evs
       /\ filter (fun e => isVerifyOrCommit e = true) evs = [].
Proof.
  intros Hp Hw Hv. apply allValid_firstInvalid in Hv.
  split; [reflexivity|].
  rewrite (submit_unpaid w Dismisses s Hv Hp Hw).
  destruct (openedCheckout w _) as [c|]; cbn;
    (repeat split; try exact Hp);
    exists (unpaidEvents w); (split; [reflexivity|]);
    apply unpaidEvents_no_verify_commit.
Qed.

Lemma dismissal_clears_only_busy_witness :
  openedCheckout (sampleWorld NoResponse) sampleRecord <> None
  /\ paymentCompleted
       (store (snd (act (Submit (sampleWorld NoResponse) Dismisses)
                      (start sampleState)))) = false
  /\ currentStep
       (store (snd (act (Submit (sampleWorld NoResponse) Dismisses)
                      (start sampleState)))) = 5.
Proof.
  split; [discriminate|].
  destruct (dismissal_clears_only_busy (sampleWorld NoResponse)
              (start sampleState)) as (_ & H1 & H2 & _).
  - reflexivity.
  - reflexivity.
  - apply allValid_firstInvalid. vm_compute. reflexivity.
  - split; [exact H1 | exact H2].
Defined.

Lemma unpaidEvents_literal w : Forall literalFields (unpaidEvents w).
Proof.
  unfold unpaidEvents.
  destruct (keyReply w) as [[[|c k]|]|e]; destruct (scriptLoads w);
    destruct (orderReply w) as [data|e'];
    try destruct (reply_success data); cbn; repeat constructor.
Qed.

Lemma commitEvents_literal res d : Forall literalFields (commitEvents res d).
Proof.
  destruct res; cbn; repeat constructor.
Qed.

(** C6. The gateway calls of a submission are those of [gatewayTrace],
    which is computed from the world alone, or none at all (record invalid
    or payment already completed); in the order request the amount is
    absent and currency, customer_name and customer_email are the literals
    of the source, and in the checkout options name, description and the
    prefill name, email and contact are literals too: nothing of the
    record, the chosen plan included, reaches them. *)
Theorem gateway_requests_ignore_record (w : World) (r : AppState) (s : Sys) :
  exists evs,
    log (snd (handleSubmit w r s)) = log s ++ evs
    /\ filter (fun e => isGatewayCall e = true) evs
       = match firstInvalid (clock w) (formData r) (Z.to_nat steps_length) 0
         with
         | Some _ => []
         | None => if paymentCompleted r then [] else gatewayTrace w
         end
    /\ Forall literalFields evs
    /\ req_amount (orderRequest w) = None
    /\ createOrder w None s
       = match orderReply w with
         | Body data =>
             if reply_success data
             then (Normal (reply_order data),
                   mkSys (store s) (log s ++ [CreateOrder (orderRequest w)])
                     (widget s))
             else (Throw (match reply_message data with
                          | Some m =>
                              if truthy m then m
                              else js "Failed to create order"
                          | None => js "Failed to create order"
                          end),
                   mkSys (store s)
                     (log s ++ [CreateOrder (orderRequest w);
                                ConsoleError "Create order error:"])
                     (widget s))
         | Rejected e =>
             (Throw e,
              mkSys (store s)
                (log s ++ [CreateOrder (orderRequest w);
                           ConsoleError "Create order error:"])
                (widget s))
         end.
Proof.
  assert (exists evs,
    log (snd (handleSubmit w r s)) = log s ++ evs
    /\ filter (fun e => isGatewayCall e = true) evs
       = match firstInvalid (clock w) (formData r) (Z.to_nat steps_length) 0
         with
         | Some _ => []
         | None => if paymentCompleted r then [] else gatewayTrace w
         end
    /\ Forall literalFields evs) as (evs & H1 & H2 & H3).
  { destruct (firstInvalid _ _ _ 0) as [k|] eqn:E.
    - rewrite (handleSubmit_invalid _ _ _ _ E). exists []. cbn.
      rewrite app_nil_r. auto.
    - destruct (paymentCompleted r) eqn:Hp.
      + rewrite (handleSubmit_paid _ _ _ E Hp). eexists. cbn [snd log].
        split; [reflexivity|].
        split; [apply commitEvents_no_gateway | apply commitEvents_literal].
      + rewrite (handleSubmit_unpaid _ _ _ E Hp). eexists. cbn [snd log].
        split; [reflexivity|].
        split; [apply gatewayTrace_unpaidEvents | apply unpaidEvents_literal]. }
  exists evs. split; [exact H1|]. split; [exact H2|]. split; [exact H3|].
  split; [reflexivity|].
  unfold createOrder, orderRequest.
  destruct (orderReply w) as [data|e] eqn:Eo; run_steps; rewrite ?Eo;
    run_steps; [destruct (reply_success data); run_steps|];
    rewrite <- ?app_assoc; reflexivity.
Qed.

(** X23. On a valid, unpaid submission, when the key fetch yields no
    usable key or the checkout script does not load, the submission is
    aborted: the busy indicator ends false, no order is created, no commit
    is made, no widget is opened, and step, PaymentCompletedFlag, success
    modal and record are untouched. The alert is raised exactly when the
    script did not load; a rejected key fetch is written to the console. *)
Theorem gateway_unavailable_aborts (w : World) (r : AppState) (s : Sys) :
  allValid (clock w) (formData r) ->
  paymentCompleted r = false ->
  keyUsable w = false \/ scriptLoads w = false ->
  exists evs,
    handleSubmit w r s
    = (Normal tt,
       mkSys (withOnLoad false (validated w (store s))) (log s ++ evs)
         (widget s))
    /\ filter (fun e => isAlert e = true) evs
       = (if scriptLoads w then []
          else [Alert (js "Error Loading RazorPay Script")])
    /\ filter (fun e => isCreateOrder e = true) evs = []
    /\ filter (fun e => isCommit e = true) evs = []
    /\ (forall e, keyReply w = Rejected e ->
        In (ConsoleError "Error fetching Razorpay key:") evs)
    /\ onLoad (store (snd (handleSubmit w r s))) = false
    /\ currentStep (store (snd (handleSubmit w r s))) = currentStep (store s)
    /\ paymentCompleted (store (snd (handleSubmit w r s)))
       = paymentCompleted (store s)
    /\ showSuccessModal (store (snd (handleSubmit w r s)))
       = showSuccessModal (store s)
    /\ formData (store (snd (handleSubmit w r s))) = formData (store s).
Proof.
  intros Hv Hp Hdown. apply allValid_firstInvalid in Hv.
  rewrite (handleSubmit_unpaid _ _ _ Hv Hp).
  exists (unpaidEvents w).
  assert (openedCheckout w (withPassword (formData r) (generatePassword w))
          = None) as ->.
  { unfold openedCheckout, keyUsable in *.
    destruct (scriptLoads w); [|reflexivity].
    destruct Hdown as [Hk|Hk]; [|discriminate].
    destruct (keyReply w) as [[[|? ?]|]|?]; try reflexivity; discriminate. }
  split; [reflexivity|].
  unfold unpaidEvents, keyUsable in *.
  destruct (scriptLoads w) eqn:Es.
  - destruct Hdown as [Hk|Hk]; [|discriminate].
    destruct (keyReply w) as [[[|? ?]|]|?]; try discriminate; cbn;
      repeat split; try (intros ? [=]); auto.
  - destruct (keyReply w) as [[[|? ?]|]|?]; cbn;
      repeat split; try (intros ? [=]); auto.
Qed.

Lemma gateway_unavailable_aborts_witness :
  exists evs,
    handleSubmit keyDownWorld sampleState (start sampleState)
    = (Normal tt,
       mkSys (withOnLoad false (validated keyDownWorld sampleState))
         ([] ++ evs) None)
    /\ filter (fun e => isAlert e = true) evs = [].
Proof.
  destruct (gateway_unavailable_aborts keyDownWorld sampleState
              (start sampleState)) as (evs & H1 & H2 & _).
  - apply allValid_firstInvalid. vm_compute. reflexivity.
  - reflexivity.
  - left. reflexivity.
  - exists evs. split; [exact H1 | exact H2].
Defined.

(** C8, the code at the failing input: the key fetch is rejected on a
    valid, unpaid submission; the error is written to the console, the
    script is loaded, and the submission ends there with no alert, while
    the failure of the script load a few lines on does alert. *)
Lemma key_fetch_failure_raises_no_alert :
  keyReply keyDownWorld = Rejected (js "Failed to fetch")
  /\ log (snd (handleSubmit keyDownWorld sampleState (start sampleState)))
     = [FetchKey; ConsoleError "Error fetching Razorpay key:"; LoadScript]
  /\ filter (fun e => isAlert e = true)
       (log (snd (handleSubmit keyDownWorld sampleState (start sampleState))))
     = [].
Proof.
  assert (firstInvalid (clock keyDownWorld) (formData sampleState)
            (Z.to_nat steps_length) 0 = None) as E
    by (vm_compute; reflexivity).
  rewrite (handleSubmit_unpaid keyDownWorld sampleState (start sampleState) E
             eq_refl).
  repeat split.
Qed.

(** The validator compares the corrected age with 5 and 25. *)
Lemma validateDateOfBirth_age clk dob b :
  newDate clk dob = Some b ->
  validateDateOfBirth clk dob
  = (5 <=? ageOn (today clk) b) && (ageOn (today clk) b <=? 25).
Proof. intros H. unfold validateDateOfBirth, ageOn. rewrite H. reflexivity. Qed.


Lemma ageOn_yearsBefore n t : ageOn t (yearsBefore n t) = n.
Proof.
  destruct t as [ty tm td]. unfold ageOn, yearsBefore. cbn.
  rewrite Z.sub_diag, (Z.ltb_irrefl td). cbn. lia.
Qed.








(** C2, the code at the failing input: verification answers
    [success: false], yet the handler sets the payment flag, calls the
    commit and, the commit being accepted, shows the success modal. *)
Theorem refused_verification_still_commits :
  verifyReply refusedWorld
  = Body (Some (mkVerification false (js "Invalid signature") None None))
  /\ paymentCompleted
       (store (snd (act (Submit refusedWorld (Pays sampleReceipt))
                      (start sampleState)))) = true
  /\ showSuccessModal
       (store (snd (act (Submit refusedWorld (Pays sampleReceipt))
                      (start sampleState)))) = true
  /\ filter (fun e => isVerifyOrCommit e = true)
       (log (snd (act (Submit refusedWorld (Pays sampleReceipt))
                    (start sampleState))))
     = [VerifyPayment sampleReceipt;
        CreateStudentUser
          (withPassword sampleRecord (generatePassword refusedWorld))].
Proof. repeat split. Qed.

(** C3, the code at the failing input: on a first attempt whose commit is
    accepted inside the completion handler the success modal is shown but
    the payment flag is left set, while the retry path clears it. *)
Theorem accepted_in_handler_keeps_flag :
  commitOutcome (sampleWorld (HttpStatus 201)) = Accepted
  /\ showSuccessModal
       (store (snd (act (Submit (sampleWorld (HttpStatus 201))
                           (Pays sampleReceipt)) (start sampleState)))) = true
  /\ paymentCompleted
       (store (snd (act (Submit (sampleWorld (HttpStatus 201))
                           (Pays sampleReceipt)) (start sampleState)))) = true
  /\ showSuccessModal
       (store (snd (act (Submit (sampleWorld (HttpStatus 201)) LeavesOpen)
                      paidSys))) = true
  /\ paymentCompleted
       (store (snd (act (Submit (sampleWorld (HttpStatus 201)) LeavesOpen)
                      paidSys))) = false.
Proof. repeat split. Qed.

Lemma no_gateway_no_order_no_verify evs :
  filter (fun e => isGatewayCall e = true) evs = [] ->
  filter (fun e => isCreateOrder e = true) evs = []
  /\ filter (fun e => isVerify e = true) evs = [].
Proof.
  induction evs as [|e evs IH]; [auto|].
  rewrite !filter_cons. destruct e; cbn; intros H; try discriminate H;
    destruct (IH H); auto.
Qed.

Lemma unpaidEvents_one_order w d :
  openedCheckout w d <> None ->
  filter (fun e => isCreateOrder e = true) (unpaidEvents w)
  = [CreateOrder (orderRequest w)]
  /\ filter (fun e => isVerify e = true) (unpaidEvents w) = [].
Proof.
  unfold openedCheckout, unpaidEvents.
  destruct (keyReply w) as [[[|c k]|]|e]; destruct (scriptLoads w);
    try congruence;
    destruct (orderReply w) as [data|e']; try congruence;
    destruct (reply_success data); try congruence; split; reflexivity.
Qed.

Lemma handlerStore_flag w a :
  commitOutcome w <> Accepted ->
  paymentCompleted (handlerStore (axios_post (commitReply w)) a)
  = paymentCompleted a.
Proof.
  rewrite commitOutcome_axios.
  destruct (axios_post (commitReply w)) as [c|[c|]|m|m]; cbn;
    try congruence; try reflexivity.
  destruct (c =? 409); reflexivity.
Qed.

Lemma commitEvents_no_order_no_verify res d :
  filter (fun e => isCreateOrder e = true) (commitEvents res d) = []
  /\ filter (fun e => isVerify e = true) (commitEvents res d) = [].
Proof. destruct res; split; reflexivity. Qed.

(** X22. A first attempt that is charged and verified but whose commit is
    not accepted, followed by any retries that are not accepted either:
    one order and one verification in the whole session. *)
Lemma one_order_across_retries w v response l s :
  paymentCompleted (store s) = false ->
  widget s = None ->
  allValid (clock w) (formData (store s)) ->
  openedCheckout w (withPassword (formData (store s)) (generatePassword w))
    <> None ->
  verifyReply w = Body (Some v) ->
  commitOutcome w <> Accepted ->
  Forall notAccepted l ->
  exists evs,
    log (session (Submit w (Pays response) :: l) s) = log s ++ evs
    /\ filter (fun e => isCreateOrder e = true) evs
       = [CreateOrder (orderRequest w)]
    /\ filter (fun e => isVerify e = true) evs = [VerifyPayment response].
Proof.
  intros Hp Hw Hv Ho Ev Hc Hl. apply allValid_firstInvalid in Hv.
  cbn [session]. rewrite (submit_unpaid w (Pays response) s Hv Hp Hw).
  destruct (unpaidEvents_one_order w _ Ho) as [O1 V1].
  destruct (openedCheckout w _) as [c|] eqn:Eo; [|congruence].
  rewrite handler_run, Ev. cbn [snd].
  match goal with |- context [session l ?s2] =>
    destruct (session_paid_no_gateway l s2) as (e2 & L2 & G2 & _)
  end.
  - cbn [store]. unfold withOnLoad at 1. cbn [paymentCompleted].
    rewrite handlerStore_flag by exact Hc. reflexivity.
  - reflexivity.
  - exact Hl.
  - destruct (no_gateway_no_order_no_verify _ G2) as [O2 V2].
    destruct (commitEvents_no_order_no_verify
                (axios_post (commitReply w)) (captured c)) as [O3 V3].
    eexists. rewrite L2. cbn [log]. rewrite <- !app_assoc.
    split; [reflexivity|].
    rewrite !filter_app, !filter_cons, O1, V1, O2, V2, O3, V3. cbn.
    split; reflexivity.
Qed.

(* ===================================================================== *)
(** ** Worked examples *)
(* ===================================================================== *)

Example email_ok : validateEmail (js "a@b.co") = true.
Proof. reflexivity. Qed.
Example email_no_tld : validateEmail (js "a@b") = false.
Proof. reflexivity. Qed.
Example email_space : validateEmail (js "a b@c.com") = false.
Proof. reflexivity. Qed.
Example phone_ok : validatePhone (js "+91 9876 543210") = true.
Proof. vm_compute. reflexivity. Qed.
Example phone_long_group : validatePhone (js "+91 98765 43210") = false.
Proof. vm_compute. reflexivity. Qed.
Example phone_short : validatePhone (js "12") = false.
Proof. vm_compute. reflexivity. Qed.
Example phone_three : validatePhone (js "123") = true.
Proof. vm_compute. reflexivity. Qed.
Example trim_blank : trim (js "  	 ") = [].
Proof. reflexivity. Qed.
Example receipt_digits : numberToString 1700000000000 = js "1700000000000".
Proof. vm_compute. reflexivity. Qed.

Example record_valid :
  firstInvalid sampleClock sampleRecord (Z.to_nat steps_length) 0 = None.
Proof. vm_compute. reflexivity. Qed.

Example password_sample :
  generatePassword (sampleWorld NoResponse) = js "DKRYfmt07%DK".
Proof. vm_compute. reflexivity. Qed.

(** Scenario A: payment completes, verification succeeds, the commit
    answers 2xx. *)
Example scenario_accepted :
  let s := snd (act (Submit (sampleWorld (HttpStatus 201)) (Pays sampleReceipt))
                  (start sampleState)) in
  showSuccessModal (store s) = true
  /\ length (generatedPassword (store s)) = 12%nat
  /\ onLoad (store s) = false.
Proof. repeat split. Qed.

(** Scenario B: the commit answers 409. *)
Example scenario_duplicate_email :
  let s := snd (act (Submit (sampleWorld (HttpStatus 409)) (Pays sampleReceipt))
                  (start sampleState)) in
  currentStep (store s) = 1
  /\ errors (store s) !! "email" = Some "This email is already registered"
  /\ paymentCompleted (store s) = true.
Proof. vm_compute. repeat split. Qed.

(** Scenario C: the checkout script does not load. *)
Example scenario_script_down :
  let s := snd (act (Submit scriptDownWorld (Pays sampleReceipt))
                  (start sampleState)) in
  log s = [FetchKey; LoadScript; Alert (js "Error Loading RazorPay Script")]
  /\ onLoad (store s) = false.
Proof. repeat split. Qed.

(* ===================================================================== *)
(** ** Further properties of the code *)
(* ===================================================================== *)

(** *** The validators *)

Lemma star_cons_inv (L : jsstring -> Prop) c s :
  star L (c :: s) ->
  exists s1 s2, s = s1 ++ s2 /\ L (c :: s1) /\ star L s2.
Proof.
  intros H. remember (c :: s) as t eqn:Et. revert c s Et.
  induction H as [|s1 s2 H1 H2 IH]; intros c s Et; [discriminate|].
  destruct s1 as [|c1 s1].
  - cbn in Et. apply IH, Et.
  - cbn in Et. injection Et as -> <-. exists s1, s2. auto.
Qed.

Lemma nullable_lang r : nullable r = true <-> lang r [].
Proof.
  induction r as [| |p|a IHa b IHb|a IHa b IHb|a IHa]; cbn.
  - split; [discriminate | tauto].
  - tauto.
  - split; [discriminate|]. intros (c & H & _). discriminate.
  - rewrite andb_true_iff, IHa, IHb. split.
    + intros [Ha Hb]. exists [], []. auto.
    + intros (s1 & s2 & H & Ha & Hb). symmetry in H.
      apply app_eq_nil in H as [-> ->]. auto.
  - rewrite orb_true_iff, IHa, IHb. tauto.
  - split; [intros _; constructor | reflexivity].
Qed.

Lemma deriv_lang r : forall c s, lang (deriv c r) s <-> lang r (c :: s).
Proof.
  induction r as [| |p|a IHa b IHb|a IHa b IHb|a IHa]; intros c s; cbn.
  - tauto.
  - split; [tauto | discriminate].
  - destruct (p c) eqn:E; cbn.
    + split.
      * intros ->. exists c. auto.
      * intros (c' & H & _). injection H as _ ->. reflexivity.
    + split; [tauto|]. intros (c' & H & Hp). injection H as <- _. congruence.
  - assert ((exists s1 s2, s = s1 ++ s2 /\ lang (deriv c a) s1 /\ lang b s2)
            \/ (lang a [] /\ lang (deriv c b) s)
            <-> exists t1 t2, c :: s = t1 ++ t2 /\ lang a t1 /\ lang b t2)
      as Hseq.
    { split.
      - intros [(s1 & s2 & -> & H1 & H2)|[Hn Hb]].
        + exists (c :: s1), s2. rewrite <- IHa. auto.
        + exists [], (c :: s). rewrite <- IHb. auto.
      - intros (t1 & t2 & Et & H1 & H2). destruct t1 as [|c1 t1].
        + cbn in Et. subst t2. right. rewrite IHb. auto.
        + cbn in Et. injection Et as <- ->. left. exists t1, t2.
          rewrite IHa. auto. }
    rewrite <- Hseq. destruct (nullable a) eqn:En; cbn.
    + apply nullable_lang in En. tauto.
    + split; [auto|]. intros [H|[Hn _]]; [exact H|].
      apply nullable_lang in Hn. congruence.
  - rewrite IHa, IHb. tauto.
  - split.
    + intros (s1 & s2 & -> & H1 & H2). apply IHa in H1.
      change (star (lang a) ((c :: s1) ++ s2)). constructor; assumption.
    + intros H. apply star_cons_inv in H as (s1 & s2 & -> & H1 & H2).
      exists s1, s2. rewrite IHa. auto.
Qed.

(** The derivative matcher decides the language. *)
Lemma test_lang s : forall r, test r s = true <-> lang r s.
Proof.
  induction s as [|c s IH]; intros r; cbn.
  - apply nullable_lang.
  - rewrite IH. apply deriv_lang.
Qed.

Lemma star_class p s : star (lang (Class p)) s <-> allIn p s.
Proof.
  unfold allIn. split.
  - induction 1 as [|s1 s2 (c & -> & Hc) _ IH]; constructor; assumption.
  - induction 1 as [|c s Hc _ IH]; [constructor|].
    change (star (lang (Class p)) ([c] ++ s)). constructor; [|exact IH].
    exists c. auto.
Qed.

Lemma plus_class p s : lang (plus (Class p)) s <-> s <> [] /\ allIn p s.
Proof.
  unfold plus. cbn [lang]. split.
  - intros (s1 & s2 & -> & (c & -> & Hc) & H2). apply star_class in H2.
    split; [discriminate|]. constructor; assumption.
  - intros [Hne H]. destruct s as [|c s]; [congruence|].
    apply Forall_cons in H as [Hc H]. exists [c], s.
    split; [reflexivity|]. split; [exists c; auto | apply star_class, H].
Qed.

Lemma chr_lang a s : lang (chr a) s <-> s = [N_of_ascii a].
Proof.
  unfold chr. cbn. split.
  - intros (c & -> & Hc). apply N.eqb_eq in Hc. congruence.
  - intros ->. eexists. split; [reflexivity | apply N.eqb_refl].
Qed.

(** X1. An email passes exactly when it reads [a@b.c] with [a], [b], [c]
    non-empty and free of white space and of [@] ([b] may itself contain
    dots); in particular it holds exactly one [@]. *)
Theorem validateEmail_shape (e : jsstring) :
  validateEmail e = true <->
  exists a b c,
    e = a ++ js "@" ++ b ++ js "." ++ c
    /\ a <> [] /\ b <> [] /\ c <> []
    /\ allIn notSpaceNorAt a /\ allIn notSpaceNorAt b
    /\ allIn notSpaceNorAt c.
Proof.
  unfold validateEmail. rewrite test_lang. unfold emailRe. cbn [lang].
  split.
  - intros (a & r1 & -> & Ha & at' & r2 & -> & Hat & b & r3 & -> & Hb
            & dot & c & -> & Hdot & Hc).
    apply plus_class in Ha, Hb, Hc. apply chr_lang in Hat, Hdot. subst.
    exists a, b, c. tauto.
  - intros (a & b & c & -> & Ha & Hb & Hc & Pa & Pb & Pc).
    exists a, (js "@" ++ b ++ js "." ++ c). split; [reflexivity|].
    split; [apply plus_class; auto|].
    exists (js "@"), (b ++ js "." ++ c). split; [reflexivity|].
    split; [apply chr_lang; reflexivity|].
    exists b, (js "." ++ c). split; [reflexivity|].
    split; [apply plus_class; auto|].
    exists (js "."), c. split; [reflexivity|].
    split; [apply chr_lang; reflexivity | apply plus_class; auto].
Qed.

Lemma opt_lang r s : lang (opt r) s <-> s = [] \/ lang r s.
Proof. reflexivity. Qed.

Lemma exactly_class m p s :
  lang (exactly m (Class p)) s <-> length s = m /\ allIn p s.
Proof.
  revert s. induction m as [|m IH]; intros s; cbn [exactly lang].
  - split.
    + intros ->. split; [reflexivity | constructor].
    + intros [H _]. destruct s; [reflexivity | discriminate].
  - split.
    + intros (s1 & s2 & -> & (c & -> & Hc) & H2). apply IH in H2 as [<- H2].
      split; [reflexivity | constructor; assumption].
    + intros [Hl H]. destruct s as [|c s]; [discriminate|].
      apply Forall_cons in H as [Hc H]. exists [c], s.
      split; [reflexivity|]. split; [exists c; auto|].
      apply IH. cbn in Hl. split; [congruence | exact H].
Qed.

Lemma upto_class n p s :
  lang (upto n (Class p)) s <-> (length s <= n)%nat /\ allIn p s.
Proof.
  revert s. induction n as [|n IH]; intros s; cbn [upto].
  - cbn. split.
    + intros ->. split; [cbn; lia | constructor].
    + intros [H _]. destruct s; [reflexivity | cbn in H; lia].
  - rewrite opt_lang. cbn [lang]. split.
    + intros [->|(s1 & s2 & -> & (c & -> & Hc) & H2)].
      * split; [cbn; lia | constructor].
      * apply IH in H2 as [Hl H2].
        split; [cbn; lia | constructor; assumption].
    + intros [Hl H]. destruct s as [|c s]; [left; reflexivity|]. right.
      apply Forall_cons in H as [Hc H]. exists [c], s.
      split; [reflexivity|]. split; [exists c; auto|].
      apply IH. cbn in Hl. split; [lia | exact H].
Qed.

Lemma between_class m n p s :
  (m <= n)%nat ->
  lang (between m n (Class p)) s
  <-> (m <= length s <= n)%nat /\ allIn p s.
Proof.
  intros Hmn. unfold between. cbn [lang]. split.
  - intros (s1 & s2 & -> & H1 & H2).
    apply exactly_class in H1 as [L1 P1]. apply upto_class in H2 as [L2 P2].
    rewrite length_app. split; [lia|]. apply Forall_app; auto.
  - intros [Hl H]. exists (take m s), (drop m s).
    split; [symmetry; apply take_drop|]. split.
    + apply exactly_class. split; [rewrite length_take; lia|].
      apply Forall_take, H.
    + apply upto_class. split; [rewrite length_drop; lia|].
      apply Forall_drop, H.
Qed.

Lemma filter_allIn (p : N -> bool) s :
  allIn p s -> filter (fun c => p c = true) s = s.
Proof.
  induction 1 as [|c s Hc _ IH]; [reflexivity|].
  rewrite filter_cons, decide_True by exact Hc. congruence.
Qed.

Lemma isWhiteSpace_not_digit c : isWhiteSpace c = true -> isDigit c = false.
Proof.
  unfold isWhiteSpace, isDigit. intros H.
  destruct ((48 <=? c)%N && (c <=? 57)%N) eqn:E; [|reflexivity].
  apply andb_true_iff in E as [E1 E2].
  apply N.leb_le in E1, E2.
  repeat (apply orb_true_iff in H as [H|H]);
    repeat match goal with
           | H : _ && _ = true |- _ => apply andb_true_iff in H as [? ?]
           | H : (_ <=? _)%N = true |- _ => apply N.leb_le in H
           | H : (_ =? _)%N = true |- _ => apply N.eqb_eq in H
           end; lia.
Qed.

Lemma isSeparator_not_digit c : isSeparator c = true -> isDigit c = false.
Proof.
  unfold isSeparator. intros H.
  apply orb_true_iff in H as [H|H]; [apply orb_true_iff in H as [H|H]|].
  - apply N.eqb_eq in H. subst. reflexivity.
  - apply isWhiteSpace_not_digit, H.
  - apply N.eqb_eq in H. subst. reflexivity.
Qed.

(** The shape a phone number must have to pass. *)
Lemma validatePhone_shape (s : jsstring) :
  validatePhone s = true <->
  exists o1 o2 d1 o3 p1 d2 p2 d3,
    s = o1 ++ o2 ++ d1 ++ o3 ++ p1 ++ d2 ++ p2 ++ d3
    /\ (o1 = [] \/ o1 = js "+") /\ (o2 = [] \/ o2 = js "(")
    /\ (o3 = [] \/ o3 = js ")")
    /\ (p1 = [] \/ exists c, p1 = [c] /\ isSeparator c = true)
    /\ (p2 = [] \/ exists c, p2 = [c] /\ isSeparator c = true)
    /\ ((1 <= length d1 <= 4)%nat /\ allIn isDigit d1)
    /\ ((1 <= length d2 <= 4)%nat /\ allIn isDigit d2)
    /\ ((1 <= length d3 <= 9)%nat /\ allIn isDigit d3).
Proof.
  unfold validatePhone. rewrite test_lang. unfold phoneRe.
  cbn [lang]. split.
  - intros (o1 & r1 & -> & H1 & o2 & r2 & -> & H2 & d1 & r3 & -> & H3
            & o3 & r4 & -> & H4 & p1 & r5 & -> & H5 & d2 & r6 & -> & H6
            & p2 & d3 & -> & H7 & H8).
    apply between_class in H3, H6, H8; try lia.
    rewrite opt_lang, chr_lang in H1, H2, H4.
    exists o1, o2, d1, o3, p1, d2, p2, d3. repeat split; tauto.
  - intros (o1 & o2 & d1 & o3 & p1 & d2 & p2 & d3 & -> & H1 & H2 & H4 & H5
            & H7 & H3 & H6 & H8).
    exists o1, (o2 ++ d1 ++ o3 ++ p1 ++ d2 ++ p2 ++ d3).
    split; [reflexivity|]. split; [rewrite opt_lang, chr_lang; exact H1|].
    exists o2, (d1 ++ o3 ++ p1 ++ d2 ++ p2 ++ d3).
    split; [reflexivity|]. split; [rewrite opt_lang, chr_lang; exact H2|].
    exists d1, (o3 ++ p1 ++ d2 ++ p2 ++ d3).
    split; [reflexivity|]. split; [apply between_class; [lia | exact H3]|].
    exists o3, (p1 ++ d2 ++ p2 ++ d3).
    split; [reflexivity|]. split; [rewrite opt_lang, chr_lang; exact H4|].
    exists p1, (d2 ++ p2 ++ d3).
    split; [reflexivity|]. split; [exact H5|].
    exists d2, (p2 ++ d3).
    split; [reflexivity|]. split; [apply between_class; [lia | exact H6]|].
    exists p2, d3.
    split; [reflexivity|]. split; [exact H7|].
    apply between_class; [lia | exact H8].
Qed.

(** X2. A phone number that passes holds between 3 and 17 digits and at
    most 22 code units. *)
Theorem validatePhone_digit_bounds (s : jsstring) :
  validatePhone s = true ->
  (3 <= length (filter (fun c => isDigit c = true) s) <= 17)%nat
  /\ (length s <= 22)%nat.
Proof.
  intros H. apply validatePhone_shape in H
    as (o1 & o2 & d1 & o3 & p1 & d2 & p2 & d3 & -> & H1 & H2 & H4 & H5
        & H7 & [L1 D1] & [L2 D2] & [L3 D3]).
  assert (forall p, (p = [] \/ exists c, p = [c] /\ isSeparator c = true) ->
            filter (fun c => isDigit c = true) p = [] /\ (length p <= 1)%nat)
    as Hsep.
  { intros p [->|(c & -> & Hc)]; [split; [reflexivity | cbn; lia]|].
    split; [|cbn; lia]. rewrite filter_cons, decide_False; [reflexivity|].
    rewrite (isSeparator_not_digit c Hc). discriminate. }
  destruct (Hsep _ H5) as [F5 K5]. destruct (Hsep _ H7) as [F7 K7].
  assert (forall (o : jsstring) a, isDigit (N_of_ascii a) = false ->
            (o = [] \/ o = [N_of_ascii a]) ->
            filter (fun c => isDigit c = true) o = [] /\ (length o <= 1)%nat)
    as Hopt.
  { intros o a Ha [->| ->]; [split; [reflexivity | cbn; lia]|].
    split; [|cbn; lia]. rewrite filter_cons, decide_False; [reflexivity|].
    rewrite Ha. discriminate. }
  destruct (Hopt o1 "+"%char eq_refl H1) as [F1 K1].
  destruct (Hopt o2 "("%char eq_refl H2) as [F2 K2].
  destruct (Hopt o3 ")"%char eq_refl H4) as [F4 K4].
  rewrite !filter_app, F1, F2, F4, F5, F7, !filter_allIn by assumption.
  rewrite !length_app. cbn [length app]. lia.
Qed.

Lemma validatePhone_digit_bounds_witness :
  (3 <= length (filter (fun c => isDigit c = true) (js "+91 9876 543210"))
   <= 17)%nat
  /\ (length (js "+91 9876 543210") <= 22)%nat.
Proof.
  apply (validatePhone_digit_bounds (js "+91 9876 543210")).
  vm_compute. reflexivity.
Defined.

(** X3. Every string of 3 to 17 digits, with nothing else in it, passes as
    a phone number. *)
Theorem validatePhone_plain_digits (s : jsstring) :
  allIn isDigit s ->
  (3 <= length s <= 17)%nat ->
  validatePhone s = true.
Proof.
  intros Hd Hl. apply validatePhone_shape.
  set (l3 := Nat.min 9 (length s - 2)).
  set (l2 := Nat.min 4 (length s - l3 - 1)).
  set (l1 := (length s - l3 - l2)%nat).
  exists [], [], (take l1 s), [], [], (take l2 (drop l1 s)), [],
    (drop l2 (drop l1 s)).
  cbn [app]. rewrite !take_drop.
  split; [reflexivity|]. repeat (split; [left; reflexivity|]).
  unfold allIn. repeat split.
  - rewrite length_take. lia.
  - rewrite length_take. lia.
  - apply Forall_take, Hd.
  - rewrite length_take, length_drop. lia.
  - rewrite length_take, length_drop. lia.
  - apply Forall_take, Forall_drop, Hd.
  - rewrite !length_drop. lia.
  - rewrite !length_drop. lia.
  - apply Forall_drop, Forall_drop, Hd.
Qed.

Lemma validatePhone_plain_digits_witness :
  validatePhone (js "12345678901234567") = true.
Proof.
  apply (validatePhone_plain_digits (js "12345678901234567")).
  - unfold allIn. vm_compute. repeat constructor.
  - vm_compute. lia.
Defined.

Lemma trimStart_nil s : trimStart s = [] <-> blank s = true.
Proof.
  unfold blank. induction s as [|c s IH]; cbn; [tauto|].
  destruct (isWhiteSpace c); cbn; [exact IH|].
  split; discriminate.
Qed.

Lemma trimStart_blank s : blank (trimStart s) = blank s.
Proof.
  unfold blank. induction s as [|c s IH]; cbn; [reflexivity|].
  destruct (isWhiteSpace c) eqn:E; cbn; [exact IH|].
  rewrite E. reflexivity.
Qed.

Lemma blank_rev s : blank (rev s) = blank s.
Proof.
  unfold blank. induction s as [|c s IH]; cbn; [reflexivity|].
  rewrite forallb_app, IH. cbn. rewrite andb_true_r. apply andb_comm.
Qed.

(** [!s.trim()] holds exactly for the blank strings. *)
Lemma truthy_trim s : truthy (trim s) = negb (blank s).
Proof.
  unfold trim.
  assert (blank (rev (trimStart s)) = blank s) as Hb
    by (rewrite blank_rev; apply trimStart_blank).
  destruct (trimStart (rev (trimStart s))) as [|c t] eqn:E.
  - apply trimStart_nil in E. rewrite <- Hb, E. reflexivity.
  - assert (blank s = false) as ->.
    { rewrite <- Hb. destruct (blank (rev (trimStart s))) eqn:E2;
        [|reflexivity].
      apply trimStart_nil in E2. congruence. }
    cbn. destruct (rev t ++ [c]) eqn:E3; [|reflexivity].
    apply app_eq_nil in E3 as [_ E3]. discriminate.
Qed.

(** X4. The three required names are rejected exactly when they are empty
    or made of white space only, with the message of the source. *)
Theorem required_names_reject_blanks (clk : Clock) (d : FormData) :
  newErrors clk d 0 !! "firstName"
  = (if blank (firstName d) then Some "First name is required" else None)
  /\ newErrors clk d 0 !! "lastName"
     = (if blank (lastName d) then Some "Last name is required" else None)
  /\ newErrors clk d 3 !! "parentName"
     = (if blank (parentName d)
        then Some "Parent/Guardian name is required" else None).
Proof.
  unfold newErrors. cbv zeta. cbn [Z.eqb].
  rewrite !truthy_trim, !negb_involutive.
  repeat split.
  - destruct (blank (firstName d)), (blank (lastName d)),
      (truthy (dateOfBirth d)), (validateDateOfBirth clk (dateOfBirth d));
      cbn; by simplify_map_eq.
  - destruct (blank (firstName d)), (blank (lastName d)),
      (truthy (dateOfBirth d)), (validateDateOfBirth clk (dateOfBirth d));
      cbn; by simplify_map_eq.
  - destruct (blank (parentName d)), (truthy (parentEmail d)),
      (validateEmail (parentEmail d)), (truthy (parentPhone d)),
      (validatePhone (parentPhone d)); cbn; by simplify_map_eq.
Qed.

Lemma truthy_nonempty s : truthy s = true <-> s <> [].
Proof. destruct s; cbn; split; congruence. Qed.

Lemma validateEmail_nonempty e : validateEmail e = true -> truthy e = true.
Proof. destruct e; [discriminate | reflexivity]. Qed.

Lemma validatePhone_nonempty p : validatePhone p = true -> truthy p = true.
Proof. destruct p; [discriminate | reflexivity]. Qed.

(** X5. The record passes the validation of every step exactly when the
    three names are not blank, the birth date is filled in and gives an
    age of 5 to 25, the two emails have the email shape, the guardian's
    phone has the phone shape, the applicant's own phone is empty or has
    it, and a grade is chosen. *)
Theorem allValid_characterised (clk : Clock) (d : FormData) :
  allValid clk d <-> submittable clk d.
Proof.
  unfold submittable. split.
  - intros H.
    pose proof (H 0 ltac:(unfold steps_length; lia)) as H0.
    pose proof (H 1 ltac:(unfold steps_length; lia)) as H1.
    pose proof (H 2 ltac:(unfold steps_length; lia)) as H2.
    pose proof (H 3 ltac:(unfold steps_length; lia)) as H3.
    unfold newErrors in H0, H1, H2, H3.
    cbv zeta in H0, H1, H2, H3. cbn [Z.eqb] in H0, H1, H2, H3.
    rewrite !truthy_trim, !negb_involutive in H0.
    rewrite !truthy_trim, !negb_involutive in H3.
    assert (forall (k v : string) (m : gmap string string),
               <[k := v]> m = ∅ -> False) as Hins
      by (intros k v m; apply insert_non_empty).
    destruct (blank (firstName d)), (blank (lastName d)),
      (truthy (dateOfBirth d)) eqn:Td,
      (validateDateOfBirth clk (dateOfBirth d));
      cbn in H0; try (exfalso; exact (Hins _ _ _ H0)).
    destruct (truthy (email d)) eqn:Te, (validateEmail (email d)),
      (truthy (phone d)) eqn:Tp, (validatePhone (phone d));
      cbn in H1; try (exfalso; exact (Hins _ _ _ H1)).
    all: destruct (truthy (grade d)) eqn:Tg;
      cbn in H2; try (exfalso; exact (Hins _ _ _ H2)).
    all: destruct (blank (parentName d)), (truthy (parentEmail d)),
      (validateEmail (parentEmail d)), (truthy (parentPhone d)),
      (validatePhone (parentPhone d));
      cbn in H3; try (exfalso; exact (Hins _ _ _ H3)).
    all: apply truthy_nonempty in Td, Tg.
    all: repeat split; auto.
    all: destruct (phone d); [left; reflexivity | discriminate Tp].
  - intros (F & L & Db & Dv & E & P & G & Pn & Pe & Pp) i Hi.
    unfold steps_length in Hi. unfold newErrors. cbv zeta.
    rewrite !truthy_trim, F, L, Pn, Dv, E, Pe, Pp.
    rewrite (validateEmail_nonempty _ E), (validateEmail_nonempty _ Pe),
      (validatePhone_nonempty _ Pp).
    apply truthy_nonempty in Db, G. rewrite Db, G.
    assert (truthy (phone d) && negb (validatePhone (phone d)) = false)
      as -> by (destruct P as [-> | ->]; [reflexivity | apply andb_false_r]).
    cbn. repeat match goal with |- context [if ?b then _ else _] =>
                  destruct b end; reflexivity.
Qed.

(** X6. When the random source answers indices below the 70 symbols of the
    alphabet, as [Math.floor(Math.random() * chars.length)] does, the
    password has 12 code units, each of the alphabet. *)
Theorem generatePassword_twelve_of_alphabet (w : World) :
  (forall i, (i < 12)%nat -> (randomIndex w i < 70)%nat) ->
  length (generatePassword w) = 12%nat
  /\ Forall (fun c => c ∈ chars) (generatePassword w).
Proof.
  intros H. unfold generatePassword.
  assert (forall l acc,
            Forall (fun i => (i < 12)%nat) l ->
            Forall (fun c => c ∈ chars) acc ->
            length (foldl (fun password i =>
                             password ++ charAt chars (randomIndex w i)) acc l)
            = (length acc + length l)%nat
            /\ Forall (fun c => c ∈ chars)
                 (foldl (fun password i =>
                           password ++ charAt chars (randomIndex w i)) acc l))
    as Hfold.
  { induction l as [|i l IH]; intros acc Hl Hacc; cbn [foldl].
    - split; [cbn; lia | exact Hacc].
    - apply Forall_cons in Hl as [Hi Hl].
      assert (exists c, chars !! randomIndex w i = Some c) as [c Hc].
      { apply lookup_lt_is_Some.
        enough (length chars = 70%nat) as -> by (apply H, Hi).
        vm_compute. reflexivity. }
      unfold charAt at 2 4. rewrite Hc.
      destruct (IH (acc ++ [c]) Hl) as [L P].
      + apply Forall_app. split; [exact Hacc|].
        constructor; [|constructor]. eapply list_elem_of_lookup_2, Hc.
      + split; [|exact P]. rewrite L, length_app. cbn. lia. }
  destruct (Hfold (seq 0 12) []) as [L P].
  - apply Forall_forall. intros i Hi. apply list_elem_of_In, in_seq in Hi. lia.
  - constructor.
  - split; [exact L | exact P].
Qed.

Lemma generatePassword_twelve_of_alphabet_witness :
  length (generatePassword (sampleWorld NoResponse)) = 12%nat
  /\ Forall (fun c => c ∈ chars) (generatePassword (sampleWorld NoResponse)).
Proof.
  apply (generatePassword_twelve_of_alphabet (sampleWorld NoResponse)).
  intros i Hi. unfold sampleWorld. cbn [randomIndex].
  apply Nat.mod_upper_bound. lia.
Defined.

(** X7. A birth date that is today or later is rejected. *)
Theorem validateDateOfBirth_rejects_future
    (clk : Clock) (dob : jsstring) (b : DateFields) :
  newDate clk dob = Some b ->
  notAfter (today clk) b ->
  validateDateOfBirth clk dob = false.
Proof.
  intros H Hb. rewrite (validateDateOfBirth_age _ _ _ H).
  assert (ageOn (today clk) b <= 0) as Ha.
  { destruct (today clk) as [ty tm td], b as [yb mb db].
    unfold ageOn. cbn.
    destruct Hb as [Hb|Hb]; [|injection Hb as -> -> ->].
    - unfold before in Hb. cbn in Hb.
      destruct (tm - mb <? 0) eqn:E1; cbn; [lia|].
      apply Z.ltb_ge in E1.
      destruct (tm - mb =? 0) eqn:E2; cbn.
      + apply Z.eqb_eq in E2. destruct (td <? db) eqn:E3; [lia|].
        apply Z.ltb_ge in E3. lia.
      + apply Z.eqb_neq in E2. lia.
    - rewrite !Z.sub_diag, (Z.ltb_irrefl db). cbn. lia. }
  apply andb_false_iff. left. apply Z.leb_gt. lia.
Qed.

Lemma validateDateOfBirth_rejects_future_witness :
  validateDateOfBirth sampleClock (js "2026-11-03") = false.
Proof.
  apply (validateDateOfBirth_rejects_future sampleClock (js "2026-11-03")
           (mkDate 2026 10 3)).
  - reflexivity.
  - left. right. split; [reflexivity|]. right. cbn. split; [reflexivity | lia].
Defined.

(** *** The wizard as a whole *)

(** Runs a submission through its three branches (record invalid, payment
    completed, payment due) and through what the widget answers. *)
Ltac submit_cases w u s :=
  cbn [act]; unfold submitAttempt, fromRender, bind;
  let k := fresh "k" in
  let E := fresh "Efi" in
  let Hp := fresh "Hpaid" in
  destruct (firstInvalid (clock w) (formData (store s))
              (Z.to_nat steps_length) 0) as [k|] eqn:E;
  [ rewrite (handleSubmit_invalid _ _ _ _ E)
  | destruct (paymentCompleted (store s)) eqn:Hp;
    [ rewrite (handleSubmit_paid _ _ _ E Hp)
    | rewrite (handleSubmit_unpaid _ _ _ E Hp);
      destruct (openedCheckout w
                  (withPassword (formData (store s)) (generatePassword w)))
        as [?c|] eqn:?Eo ] ];
  unfold resolveCheckout; cbn [widget store log];
  try (destruct (widget s) as [?c|] eqn:?Ew);
  try (destruct u as [?resp| |]);
  try (rewrite handler_run;
       destruct (verifyReply w) as [[?v|]|?e] eqn:?Ev);
  unfold ondismiss, setOnload, update;
  cbn [snd store log widget].

Ltac commit_cases w :=
  unfold paidStore, handlerStore;
  try (destruct (axios_post (commitReply w)) as [?c|[?c|]|?m|?m] eqn:?Eax);
  try match goal with |- context [?c =? 409] => destruct (c =? 409) end.

Lemma act_stepInRange a s :
  stepInRange (store s) -> stepInRange (store (snd (act a s))).
Proof.
  unfold stepInRange, steps_length. intros H.
  destruct a as [w u|w| |w f|f v|x|].
  - submit_cases w u s; commit_cases w; cbn; try lia;
      apply firstInvalid_some in Efi; unfold steps_length in Efi;
      cbn in Efi; lia.
  - destruct s as [a lg wd]. cbn [store] in H. cbn [act].
    unfold fromRender, handleNext, validateStep, steps_length. run_steps.
    match goal with |- context [if ?b then _ else _] => destruct b eqn:E end;
      cbn; [|exact H].
    apply andb_true_iff in E as [_ E]. apply Z.ltb_lt in E. lia.
  - destruct s as [a lg wd]. cbn [store] in H. cbn [act].
    unfold fromRender, handlePrevious. cbn [store].
    destruct (0 <? currentStep a) eqn:E; run_steps; cbn; [|exact H].
    apply Z.ltb_lt in E. lia.
  - cbn [act]. unfold fromRender, handleBlur, validateStep. run_steps.
    exact H.
  - cbn [act]. unfold fromRender, updateFormData.
    destruct (errors (store s) !! fieldName f) as [[|? ?]|]; run_steps;
      exact H.
  - cbn [act]. unfold toggleSubject. run_steps. exact H.
  - cbn [act]. unfold handleModalClose. run_steps. exact H.
Qed.

(** X8. From a step of the wizard, no sequence of actions (submissions
    with any answers of the world, Next, Previous, edits) ever leaves the
    range 0 .. steps.length - 1. *)
Theorem currentStep_stays_in_range (l : list Action) (s : Sys) :
  stepInRange (store s) -> stepInRange (store (session l s)).
Proof.
  revert s. induction l as [|a l IH]; intros s H; [exact H|].
  cbn [session]. apply IH, act_stepInRange, H.
Qed.

Lemma currentStep_stays_in_range_witness :
  stepInRange (store (session sampleSession (start sampleState))).
Proof.
  apply (currentStep_stays_in_range sampleSession (start sampleState)).
  unfold stepInRange, steps_length. cbn. lia.
Defined.

Lemma act_modal a s :
  showSuccessModal (store (snd (act a s))) = true ->
  showSuccessModal (store s) = true \/ ~ notAccepted a.
Proof.
  destruct a as [w u|w| |w f|f v|x|].
  - unfold notAccepted. rewrite commitOutcome_axios.
    submit_cases w u s; commit_cases w; cbn; auto.
  - cbn [act]. unfold fromRender, handleNext, validateStep. run_steps.
    match goal with |- context [if ?b then _ else _] => destruct b end; auto.
  - cbn [act]. unfold fromRender, handlePrevious.
    destruct (0 <? currentStep (store s)); run_steps; auto.
  - cbn [act]. unfold fromRender, handleBlur, validateStep. run_steps. auto.
  - cbn [act]. unfold fromRender, updateFormData.
    destruct (errors (store s) !! fieldName f) as [[|? ?]|]; run_steps; auto.
  - cbn [act]. unfold toggleSubject. run_steps. auto.
  - cbn [act]. unfold handleModalClose. run_steps. cbn. discriminate.
Qed.

(** X9. The success modal is never shown without an accepted commit: in a
    session none of whose submissions has its commit accepted, a modal
    that was closed stays closed. *)
Theorem success_modal_needs_accepted_commit (l : list Action) (s : Sys) :
  showSuccessModal (store s) = false ->
  Forall notAccepted l ->
  showSuccessModal (store (session l s)) = false.
Proof.
  revert s. induction l as [|a l IH]; intros s H Hl; [exact H|].
  apply Forall_cons in Hl as [Ha Hl]. cbn [session]. apply IH; [|exact Hl].
  destruct (showSuccessModal (store (snd (act a s)))) eqn:E; [|reflexivity].
  apply act_modal in E as [E|E]; [congruence | contradiction].
Qed.

Lemma success_modal_needs_accepted_commit_witness :
  showSuccessModal (store (session sampleSession (start sampleState)))
  = false.
Proof.
  apply (success_modal_needs_accepted_commit sampleSession
           (start sampleState)).
  - reflexivity.
  - unfold sampleSession.
    repeat (apply Forall_cons; split; [cbn; try exact I; discriminate|]).
    apply Forall_nil. exact I.
Defined.

Lemma verifiedFirst_after_verify l p evs :
  verifiedFirst l -> verifiedFirst (l ++ VerifyPayment p :: evs).
Proof.
  intros H i d Hi. destruct (decide (i < length l)%nat) as [Hlt|Hge].
  - rewrite lookup_app_l in Hi by exact Hlt.
    destruct (H i d Hi) as (j & q & Hj & Hq). exists j, q.
    split; [exact Hj|]. rewrite lookup_app_l by lia. exact Hq.
  - exists (length l), p. split.
    + destruct (decide (i = length l)) as [->|]; [|lia].
      rewrite list_lookup_middle in Hi by reflexivity. discriminate.
    + apply list_lookup_middle. reflexivity.
Qed.

Lemma verifiedFirst_once_verified l evs :
  verifiedFirst l ->
  (exists j p, l !! j = Some (VerifyPayment p)) ->
  verifiedFirst (l ++ evs).
Proof.
  intros H (j0 & p0 & H0) i d Hi.
  destruct (decide (i < length l)%nat) as [Hlt|Hge].
  - rewrite lookup_app_l in Hi by exact Hlt.
    destruct (H i d Hi) as (j & q & Hj & Hq). exists j, q.
    split; [exact Hj|]. rewrite lookup_app_l by lia. exact Hq.
  - exists j0, p0. pose proof (lookup_lt_Some _ _ _ H0).
    split; [lia|]. rewrite lookup_app_l by lia. exact H0.
Qed.

Lemma verifiedFirst_no_commit l evs :
  verifiedFirst l ->
  Forall (fun e => isCommit e = false) evs ->
  verifiedFirst (l ++ evs).
Proof.
  intros H Hevs i d Hi. destruct (decide (i < length l)%nat) as [Hlt|Hge].
  - rewrite lookup_app_l in Hi by exact Hlt.
    destruct (H i d Hi) as (j & q & Hj & Hq). exists j, q.
    split; [exact Hj|]. rewrite lookup_app_l by lia. exact Hq.
  - rewrite lookup_app_r in Hi by lia.
    apply list_elem_of_lookup_2 in Hi.
    rewrite Forall_forall in Hevs. apply Hevs in Hi. discriminate.
Qed.

Lemma unpaidEvents_no_commit w :
  Forall (fun e => isCommit e = false) (unpaidEvents w).
Proof.
  unfold unpaidEvents.
  destruct (keyReply w) as [[[|c k]|]|e]; destruct (scriptLoads w);
    destruct (orderReply w) as [data|e'];
    try destruct (reply_success data); cbn; repeat constructor.
Qed.

Lemma verified_lookup_app (l evs : list Event) :
  (exists j p, l !! j = Some (VerifyPayment p)) ->
  exists j p, (l ++ evs) !! j = Some (VerifyPayment p).
Proof.
  intros (j & p & H). exists j, p. pose proof (lookup_lt_Some _ _ _ H).
  rewrite lookup_app_l by lia. exact H.
Qed.

(** Commits come after a verification, and a set payment flag means a
    verification was made. *)
Lemma verified_middle (l : list Event) p evs :
  exists j q, (l ++ VerifyPayment p :: evs) !! j = Some (VerifyPayment q).
Proof. exists (length l), p. apply list_lookup_middle. reflexivity. Qed.

Lemma handleSubmit_verifiedFirst w s :
  verifiedFirst (log s) ->
  (paymentCompleted (store s) = true ->
   exists j p, log s !! j = Some (VerifyPayment p)) ->
  verifiedFirst (log (snd (handleSubmit w (store s) s)))
  /\ (paymentCompleted (store (snd (handleSubmit w (store s) s))) = true ->
      exists j p,
        log (snd (handleSubmit w (store s) s)) !! j = Some (VerifyPayment p)).
Proof.
  intros Hl Hf.
  destruct (firstInvalid (clock w) (formData (store s))
              (Z.to_nat steps_length) 0) as [k|] eqn:E.
  - rewrite (handleSubmit_invalid _ _ _ _ E). cbn. auto.
  - destruct (paymentCompleted (store s)) eqn:Hp.
    + rewrite (handleSubmit_paid _ _ _ E Hp). cbn [snd log store].
      split.
      * apply verifiedFirst_once_verified; auto.
      * intros _. apply verified_lookup_app. auto.
    + rewrite (handleSubmit_unpaid _ _ _ E Hp). cbn [snd log store].
      split.
      * apply verifiedFirst_no_commit;
          [exact Hl | apply unpaidEvents_no_commit].
      * cbn. intros H. congruence.
Qed.

Lemma resolveCheckout_verifiedFirst w u s :
  verifiedFirst (log s) ->
  (paymentCompleted (store s) = true ->
   exists j p, log s !! j = Some (VerifyPayment p)) ->
  verifiedFirst (log (snd (resolveCheckout w u s)))
  /\ (paymentCompleted (store (snd (resolveCheckout w u s))) = true ->
      exists j p,
        log (snd (resolveCheckout w u s)) !! j = Some (VerifyPayment p)).
Proof.
  intros Hl Hf. unfold resolveCheckout.
  destruct (widget s) as [c|]; [|auto].
  destruct u as [resp| |]; [|cbn; auto|auto].
  rewrite handler_run.
  destruct (verifyReply w) as [[v|]|e]; cbn [snd log store].
  - split; [apply verifiedFirst_after_verify, Hl|].
    intros _. apply verified_middle.
  - split; [apply verifiedFirst_after_verify, Hl|].
    intros _. apply verified_middle.
  - split; [apply verifiedFirst_after_verify, Hl|].
    intros _. apply verified_middle.
Qed.

Lemma act_verifiedFirst a s :
  verifiedFirst (log s) ->
  (paymentCompleted (store s) = true ->
   exists j p, log s !! j = Some (VerifyPayment p)) ->
  verifiedFirst (log (snd (act a s)))
  /\ (paymentCompleted (store (snd (act a s))) = true ->
      exists j p, log (snd (act a s)) !! j = Some (VerifyPayment p)).
Proof.
  intros Hl Hf.
  destruct a as [w u|w| |w f|f v|x|].
  2-7: match goal with |- context [act ?a ?s0] =>
         destruct (act_other_frame a s0 I) as (L & _ & P) end;
       rewrite L, P; auto.
  destruct (handleSubmit_verifiedFirst w s Hl Hf) as [H1 H2].
  cbn [act]. unfold submitAttempt, fromRender, bind.
  destruct (handleSubmit w (store s) s) as [[[]|e] s1] eqn:E; cbn [snd] in *.
  - apply resolveCheckout_verifiedFirst; assumption.
  - auto.
Qed.

(** X10. In a session that starts with the payment flag clear and an empty
    log, whatever the world answers and whatever the user does, every
    account-creation call is preceded by a payment-verification call. *)
Theorem commit_only_after_verification (l : list Action) (a : AppState) :
  paymentCompleted a = false ->
  verifiedFirst (log (session l (start a))).
Proof.
  intros Ha.
  assert (forall s,
    verifiedFirst (log s) ->
    (paymentCompleted (store s) = true ->
     exists j p, log s !! j = Some (VerifyPayment p)) ->
    verifiedFirst (log (session l s))) as H.
  { induction l as [|x l IH]; intros s H1 H2; [exact H1|].
    cbn [session]. destruct (act_verifiedFirst x s H1 H2). apply IH; auto. }
  apply H.
  - intros i d Hi. cbn in Hi. rewrite lookup_nil in Hi. discriminate.
  - cbn. congruence.
Qed.

Lemma commit_only_after_verification_witness :
  verifiedFirst (log (session sampleSession (start sampleState)))
  /\ filter (fun e => isCommit e = true)
       (log (session sampleSession (start sampleState))) <> [].
Proof.
  split.
  - apply (commit_only_after_verification sampleSession sampleState).
    reflexivity.
  - intros H. vm_compute in H. discriminate H.
Defined.

Ltac store_fields :=
  cbn [currentStep showSuccessModal generatedPassword copiedEmail
       copiedPassword openSelect onLoad errors touched paymentCompleted
       formData withCurrentStep withShowSuccessModal withGeneratedPassword
       withOnLoad withErrors withTouched withPaymentCompleted withFormData
       validated store log widget snd].

Lemma session_app l1 l2 s : session (l1 ++ l2) s = session l2 (session l1 s).
Proof. revert s. induction l1 as [|a l1 IH]; intros s; cbn; auto. Qed.

Lemma newErrors_messages clk d i :
  map_Forall (fun (_ : string) (m : string) => m <> EmptyString)
    (newErrors clk d i).
Proof.
  unfold newErrors. cbv zeta.
  repeat match goal with |- context [if ?b then _ else _] => destruct b end;
    repeat (apply map_Forall_insert_2; [discriminate|]);
    apply map_Forall_empty.
Qed.

Lemma act_messagesShown a s :
  messagesShown (store s) -> messagesShown (store (snd (act a s))).
Proof.
  unfold messagesShown. intros H.
  destruct a as [w u|w| |w f|f v|x|].
  - submit_cases w u s; commit_cases w; store_fields;
      repeat (apply map_Forall_insert_2; [discriminate|]);
      first [apply map_Forall_empty | apply newErrors_messages | exact H].
  - cbn [act]. unfold fromRender, handleNext, validateStep. run_steps.
    match goal with |- context [if ?b then _ else _] => destruct b end;
      apply newErrors_messages.
  - cbn [act]. unfold fromRender, handlePrevious.
    destruct (0 <? currentStep (store s)); run_steps; exact H.
  - cbn [act]. unfold fromRender, handleBlur, validateStep. run_steps.
    apply newErrors_messages.
  - cbn [act]. unfold fromRender, updateFormData.
    destruct (errors (store s) !! fieldName f) as [[|? ?]|]; run_steps;
      try exact H.
    apply map_Forall_delete, H.
  - cbn [act]. unfold toggleSubject. run_steps. exact H.
  - cbn [act]. unfold handleModalClose. run_steps. exact H.
Qed.

Lemma session_messagesShown l s :
  messagesShown (store s) -> messagesShown (store (session l s)).
Proof.
  revert s. induction l as [|a l IH]; intros s H; [exact H|].
  cbn [session]. apply IH, act_messagesShown, H.
Qed.

(** X11. Every message the wizard puts in the error map is a non-empty
    string, so typing in a field always clears that field's error: after
    any session that ends with a change of field [f], [f] has no error. *)
Theorem change_clears_field_error
    (l : list Action) (f : Field) (v : jsstring) (s : Sys) :
  messagesShown (store s) ->
  messagesShown (store (session (l ++ [Change f v]) s))
  /\ errors (store (session (l ++ [Change f v]) s)) !! fieldName f = None.
Proof.
  intros H. split; [apply session_messagesShown, H|].
  rewrite session_app. cbn [session act].
  pose proof (session_messagesShown l s H) as H2.
  set (s2 := session l s) in *. unfold messagesShown in H2.
  unfold fromRender, updateFormData.
  destruct (errors (store s2) !! fieldName f) as [[|c m]|] eqn:E; run_steps.
  - apply H2 in E. congruence.
  - cbn. apply lookup_delete_eq.
  - exact E.
Qed.

Lemma change_clears_field_error_witness :
  errors (store (session
                   ([Submit (sampleWorld (HttpStatus 409)) (Pays sampleReceipt)]
                    ++ [Change Femail (js "asha2@example.org")])
                   (start sampleState))) !! "email" = None
  /\ errors (store (session
                      [Submit (sampleWorld (HttpStatus 409))
                         (Pays sampleReceipt)]
                      (start sampleState))) !! "email"
     = Some "This email is already registered".
Proof.
  split.
  - apply (change_clears_field_error
             [Submit (sampleWorld (HttpStatus 409)) (Pays sampleReceipt)]
             Femail (js "asha2@example.org") (start sampleState)).
    apply map_Forall_empty.
  - vm_compute. reflexivity.
Defined.

Lemma act_touched a s k :
  touched (store s) !! k = Some true ->
  touched (store (snd (act a s))) !! k = Some true.
Proof.
  intros H.
  destruct a as [w u|w| |w f|f v|x|].
  - submit_cases w u s; commit_cases w; store_fields; exact H.
  - cbn [act]. unfold fromRender, handleNext, validateStep. run_steps.
    match goal with |- context [if ?b then _ else _] => destruct b end;
      exact H.
  - cbn [act]. unfold fromRender, handlePrevious.
    destruct (0 <? currentStep (store s)); run_steps; exact H.
  - cbn [act]. unfold fromRender, handleBlur, validateStep. run_steps.
    cbn. destruct (decide (f = k)) as [->|Hne].
    + apply lookup_insert_eq.
    + rewrite lookup_insert_ne by exact Hne. exact H.
  - cbn [act]. unfold fromRender, updateFormData.
    destruct (errors (store s) !! fieldName f) as [[|? ?]|]; run_steps;
      exact H.
  - cbn [act]. unfold toggleSubject. run_steps. exact H.
  - cbn [act]. unfold handleModalClose. run_steps. exact H.
Qed.

(** X12. A field that was blurred stays touched for the rest of the
    session: a blur marks its field, and no action ever unmarks one. *)
Theorem touched_only_grows (w : World) (field : string)
    (l : list Action) (s : Sys) :
  touched (store (session (Blur w field :: l) s)) !! field = Some true
  /\ forall k, touched (store s) !! k = Some true ->
       touched (store (session l s)) !! k = Some true.
Proof.
  assert (forall l s k, touched (store s) !! k = Some true ->
            touched (store (session l s)) !! k = Some true) as H.
  { clear. induction l as [|a l IH]; intros s k H; [exact H|].
    cbn [session]. apply IH, act_touched, H. }
  split; [|apply H].
  cbn [session]. apply H. cbn [act].
  unfold fromRender, handleBlur, validateStep. run_steps. cbn.
  apply lookup_insert_eq.
Qed.

(** X13. Only edits change the record. A submission, whatever its outcome
    (DuplicateEmail and failures included), as well as Next, Previous, a
    blur and closing the modal leave every field of the record as it
    was. *)
Theorem record_changes_only_by_edits (a : Action) (s : Sys) :
  match a with
  | Change f v =>
      formData (store (snd (act a s))) = setField f v (formData (store s))
  | Toggle _ => True
  | _ => formData (store (snd (act a s))) = formData (store s)
  end.
Proof.
  destruct a as [w u|w| |w f|f v|x|]; [|..|exact I|].
  - submit_cases w u s; commit_cases w; reflexivity.
  - cbn [act]. unfold fromRender, handleNext, validateStep. run_steps.
    match goal with |- context [if ?b then _ else _] => destruct b end;
      reflexivity.
  - cbn [act]. unfold fromRender, handlePrevious.
    destruct (0 <? currentStep (store s)); reflexivity.
  - reflexivity.
  - cbn [act]. unfold fromRender, updateFormData.
    destruct (errors (store s) !! fieldName f) as [[|? ?]|]; reflexivity.
  - reflexivity.
Qed.

(** X14. [updateFormData(field, value)] writes that field and nothing else
    of the record: reading the field back gives the value, every other
    string field and the subjects are as before, and in the error map
    no key other than the field's own is touched. *)
Theorem updateFormData_sets_one_field
    (r : AppState) (f : Field) (v : jsstring) (s : Sys) :
  getField f (formData (store (snd (updateFormData r f v s)))) = v
  /\ (forall g, g <> f ->
      getField g (formData (store (snd (updateFormData r f v s))))
      = getField g (formData (store s)))
  /\ subjects (formData (store (snd (updateFormData r f v s))))
     = subjects (formData (store s))
  /\ (forall k, k <> fieldName f ->
      errors (store (snd (updateFormData r f v s))) !! k
      = errors (store s) !! k)
  /\ log (snd (updateFormData r f v s)) = log s.
Proof.
  unfold updateFormData.
  destruct (errors r !! fieldName f) as [[|c m]|]; run_steps; cbn.
  all: destruct (formData (let (store, _, _) := s in store)).
  all: (split; [|split; [|split; [|split]]]);
    [ destruct f; reflexivity
    | intros g Hg; destruct f, g; try reflexivity; congruence
    | destruct f; reflexivity
    | intros k Hk; try (rewrite lookup_delete_ne by congruence);
      reflexivity
    | reflexivity ].
Qed.

Lemma toggle_subjects x s :
  subjects (formData (store (snd (toggleSubject x s))))
  = if bool_decide (x ∈ subjects (formData (store s)))
    then filter (fun y => y ≠ x) (subjects (formData (store s)))
    else subjects (formData (store s)) ++ [x].
Proof. unfold toggleSubject. run_steps. reflexivity. Qed.

(** X15. [toggleSubject] flips the membership of its subject and of no
    other, keeps every string field, keeps the list free of duplicates,
    and toggling a subject that was absent twice gives the list back. *)
Theorem toggleSubject_flips_membership (x : jsstring) (s : Sys) :
  (x ∈ subjects (formData (store (snd (toggleSubject x s))))
   <-> x ∉ subjects (formData (store s)))
  /\ (forall y, y <> x ->
      (y ∈ subjects (formData (store (snd (toggleSubject x s))))
       <-> y ∈ subjects (formData (store s))))
  /\ (forall f, getField f (formData (store (snd (toggleSubject x s))))
               = getField f (formData (store s)))
  /\ (NoDup (subjects (formData (store s))) ->
      NoDup (subjects (formData (store (snd (toggleSubject x s))))))
  /\ (x ∉ subjects (formData (store s)) ->
      subjects (formData
                  (store (snd (toggleSubject x (snd (toggleSubject x s))))))
      = subjects (formData (store s))).
Proof.
  split; [|split; [|split; [|split]]].
  - rewrite toggle_subjects. case_bool_decide as Hx.
    + rewrite list_elem_of_filter. tauto.
    + rewrite elem_of_app, list_elem_of_singleton. tauto.
  - intros y Hy. rewrite toggle_subjects. case_bool_decide as Hx.
    + rewrite list_elem_of_filter. tauto.
    + rewrite elem_of_app, list_elem_of_singleton. tauto.
  - intros f. unfold toggleSubject. run_steps. destruct f; reflexivity.
  - intros Hnd. rewrite toggle_subjects. case_bool_decide as Hx.
    + apply NoDup_filter, Hnd.
    + apply NoDup_app. split; [exact Hnd|]. split; [|apply NoDup_singleton].
      intros y Hy Hy'. apply list_elem_of_singleton in Hy'. congruence.
  - intros Hx. rewrite !toggle_subjects.
    rewrite (bool_decide_eq_false_2 _ Hx).
    rewrite bool_decide_eq_true_2
      by (rewrite elem_of_app, list_elem_of_singleton; auto).
    rewrite filter_app, filter_cons, decide_False, filter_nil, app_nil_r
      by (intros H; apply H; reflexivity).
    clear -Hx. induction (subjects (formData (store s))) as [|y l IH];
      [reflexivity|].
    rewrite not_elem_of_cons in Hx. destruct Hx as [Hy Hl].
    rewrite filter_cons, decide_True by congruence. f_equal. apply IH, Hl.
Qed.

(** X16. When the order endpoint fails (an answer with [success: false] or a
    rejected request) on a valid, unpaid submission whose key and script
    were obtained, the error is swallowed: it is written twice to the
    console, no alert is raised, no widget is opened, no commit is made and
    the busy indicator ends false. *)
Theorem order_failure_is_silent (w : World) (r : AppState) (s : Sys) :
  allValid (clock w) (formData r) ->
  paymentCompleted r = false ->
  keyUsable w = true ->
  scriptLoads w = true ->
  orderFails w ->
  handleSubmit w r s
  = (Normal tt,
     mkSys (withOnLoad false (validated w (store s)))
       (log s ++ [FetchKey; LoadScript; CreateOrder (orderRequest w);
                  ConsoleError "Create order error:";
                  ConsoleError "Error submitting form:"])
       (widget s)).
Proof.
  intros Hv Hp Hk Hs Ho. apply allValid_firstInvalid in Hv.
  rewrite (handleSubmit_unpaid _ _ _ Hv Hp).
  unfold unpaidEvents, openedCheckout, keyUsable, orderFails in *.
  rewrite Hs.
  destruct (keyReply w) as [[[|c k]|]|e]; try discriminate.
  destruct (orderReply w) as [data|e]; [rewrite Ho|]; reflexivity.
Qed.

Lemma order_failure_is_silent_witness :
  handleSubmit orderRefusedWorld sampleState (start sampleState)
  = (Normal tt,
     mkSys (withOnLoad false (validated orderRefusedWorld sampleState))
       ([] ++ [FetchKey; LoadScript; CreateOrder (orderRequest orderRefusedWorld);
               ConsoleError "Create order error:";
               ConsoleError "Error submitting form:"])
       None).
Proof.
  apply (order_failure_is_silent orderRefusedWorld sampleState
           (start sampleState)).
  - apply allValid_firstInvalid. vm_compute. reflexivity.
  - reflexivity.
  - reflexivity.
  - reflexivity.
  - reflexivity.
Defined.

(** X17. When the user has paid in the widget and the verification request
    is then rejected, the rejection leaves the completion handler
    uncaught, no commit is made and PaymentCompletedFlag stays false; so
    the next submission of the same record, if the gateway answers, creates
    a second order. *)
Theorem rejected_verification_forgets_payment
    (w w2 : World) (response : RazorpayResponse) (u2 : UserChoice)
    (e : jsstring) (s : Sys) :
  paymentCompleted (store s) = false ->
  widget s = None ->
  allValid (clock w) (formData (store s)) ->
  openedCheckout w (withPassword (formData (store s)) (generatePassword w))
    <> None ->
  verifyReply w = Rejected e ->
  allValid (clock w2) (formData (store s)) ->
  openedCheckout w2 (withPassword (formData (store s)) (generatePassword w2))
    <> None ->
  fst (act (Submit w (Pays response)) s) = Throw e
  /\ store (snd (act (Submit w (Pays response)) s))
     = withOnLoad false (validated w (store s))
  /\ log (snd (act (Submit w (Pays response)) s))
     = log s ++ unpaidEvents w
             ++ [VerifyPayment response; ConsoleError "Verify payment error:"]
  /\ exists evs2,
       log (session [Submit w (Pays response); Submit w2 u2] s)
       = log (snd (act (Submit w (Pays response)) s)) ++ evs2
       /\ CreateOrder (orderRequest w2) ∈ evs2.
Proof.
  intros Hp Hw Hv Ho Ev Hv2 Ho2.
  apply allValid_firstInvalid in Hv, Hv2.
  assert (act (Submit w (Pays response)) s
          = (Throw e,
             mkSys (withOnLoad false (validated w (store s)))
               (log s ++ unpaidEvents w
                  ++ [VerifyPayment response;
                      ConsoleError "Verify payment error:"]) None)) as Hact.
  { cbn [act]. unfold submitAttempt, fromRender, bind.
    rewrite (handleSubmit_unpaid _ _ _ Hv Hp).
    unfold resolveCheckout. cbn [widget store log].
    destruct (openedCheckout w _) as [c|]; [|congruence].
    rewrite handler_run, Ev. cbn [store log widget].
    rewrite <- app_assoc. reflexivity. }
  rewrite Hact. cbn [fst snd store log].
  split; [reflexivity|]. split; [reflexivity|]. split; [reflexivity|].
  cbn [session]. rewrite Hact. cbn [snd].
  match goal with |- context [act (Submit w2 u2) ?s1] =>
    pose proof (submit_unpaid w2 u2 s1) as H2 end.
  cbn [store widget log] in H2.
  specialize (H2 Hv2 Hp eq_refl).
  assert (In (CreateOrder (orderRequest w2)) (unpaidEvents w2)) as Hin.
  { destruct (unpaidEvents_one_order w2 _ Ho2) as [O _].
    apply list_elem_of_In. eapply list_elem_of_filter.
    rewrite O. apply list_elem_of_singleton. reflexivity. }
  apply list_elem_of_In in Hin.
  rewrite H2.
  destruct (openedCheckout w2 _) as [c2|]; [|congruence].
  destruct u2 as [resp2| |].
  - rewrite handler_run.
    destruct (verifyReply w2) as [[v2|]|e2]; cbn [snd log];
      eexists; (split; [rewrite <- app_assoc; reflexivity|]);
      apply elem_of_app; left; exact Hin.
  - cbn. eexists. split; [reflexivity | exact Hin].
  - cbn. eexists. split; [reflexivity | exact Hin].
Qed.

Lemma rejected_verification_forgets_payment_witness :
  fst (act (Submit verifyDownWorld (Pays sampleReceipt)) (start sampleState))
  = Throw (js "Failed to fetch")
  /\ paymentCompleted
       (store (snd (act (Submit verifyDownWorld (Pays sampleReceipt))
                      (start sampleState)))) = false.
Proof.
  destruct (rejected_verification_forgets_payment verifyDownWorld
              (sampleWorld NoResponse) sampleReceipt LeavesOpen
              (js "Failed to fetch") (start sampleState))
    as (H1 & H2 & _).
  - reflexivity.
  - reflexivity.
  - apply allValid_firstInvalid. vm_compute. reflexivity.
  - discriminate.
  - reflexivity.
  - apply allValid_firstInvalid. vm_compute. reflexivity.
  - discriminate.
  - split; [exact H1|]. rewrite H2. reflexivity.
Defined.

Lemma unpaidEvents_carry w d pw : Forall (commitCarries d pw) (unpaidEvents w).
Proof.
  unfold unpaidEvents.
  destruct (keyReply w) as [[[|c k]|]|e]; destruct (scriptLoads w);
    destruct (orderReply w) as [data|e'];
    try destruct (reply_success data); cbn; repeat constructor.
Qed.

Lemma commitEvents_carry res d pw :
  Forall (commitCarries d pw) (commitEvents res (withPassword d pw)).
Proof. destruct res; cbn; repeat constructor. Qed.

(** X18. The password shown is the password sent. After a submission
    pressed with no widget pending, every account-creation call it made
    carries the record of that moment with, as password, the generated
    password now held in the store (the one the success modal displays),
    on the first attempt as on a retry. *)
Theorem commit_carries_shown_password
    (w : World) (u : UserChoice) (s : Sys) :
  widget s = None ->
  exists evs,
    log (snd (act (Submit w u) s)) = log s ++ evs
    /\ Forall (commitCarries (formData (store s))
                 (generatedPassword (store (snd (act (Submit w u) s)))))
         evs.
Proof.
  intros Hw.
  destruct (firstInvalid (clock w) (formData (store s))
              (Z.to_nat steps_length) 0) as [k|] eqn:E.
  - cbn [act]. unfold submitAttempt, fromRender, bind.
    rewrite (handleSubmit_invalid _ _ _ _ E). unfold resolveCheckout.
    cbn [widget]. rewrite Hw. exists []. cbn. rewrite app_nil_r.
    split; [reflexivity | constructor].
  - destruct (paymentCompleted (store s)) eqn:Hp.
    + rewrite (submit_paid w u s Hp Hw), E. eexists. cbn [log store].
      split; [reflexivity|].
      assert (generatedPassword
                (withOnLoad false
                   (paidStore (axios_post (commitReply w))
                      (validated w (store s)))) = generatePassword w) as ->
        by (commit_cases w; reflexivity).
      apply commitEvents_carry.
    + rewrite (submit_unpaid w u s E Hp Hw).
      destruct (openedCheckout w _) as [c|] eqn:Eo.
      * apply openedCheckout_captured in Eo.
        destruct u as [resp| |].
        -- rewrite handler_run, Eo.
           destruct (verifyReply w) as [[v|]|e]; cbn [snd log store];
             eexists; (split; [rewrite <- app_assoc; reflexivity|]);
             apply Forall_app; (split; [apply unpaidEvents_carry|]).
           ++ apply Forall_cons. split; [exact I|].
              assert (generatedPassword
                        (withOnLoad false
                           (handlerStore (axios_post (commitReply w))
                              (withPaymentCompleted true
                                 (withOnLoad false
                                    (validated w (store s))))))
                      = generatePassword w) as ->
                by (commit_cases w; reflexivity).
              apply commitEvents_carry.
           ++ repeat constructor.
           ++ repeat constructor.
        -- cbn. eexists. split; [reflexivity | apply unpaidEvents_carry].
        -- cbn. eexists. split; [reflexivity | apply unpaidEvents_carry].
      * cbn. eexists. split; [reflexivity | apply unpaidEvents_carry].
Qed.

Lemma commit_carries_shown_password_witness :
  exists evs,
    log (snd (act (Submit (sampleWorld (HttpStatus 201)) (Pays sampleReceipt))
                (start sampleState))) = [] ++ evs
    /\ Forall (commitCarries sampleRecord (js "DKRYfmt07%DK")) evs.
Proof.
  apply (commit_carries_shown_password (sampleWorld (HttpStatus 201))
           (Pays sampleReceipt) (start sampleState)).
  reflexivity.
Defined.

(** X19. [handleSubmit] never lets an exception out, whatever the world
    answers (a failing order request included): it returns normally, only
    appends to the log, and when the record validated the busy indicator
    is false at its return, also when the widget has just been opened;
    when the record did not validate the busy indicator is not written. *)
Theorem handleSubmit_always_returns (w : World) (r : AppState) (s : Sys) :
  exists s' evs,
    handleSubmit w r s = (Normal tt, s')
    /\ log s' = log s ++ evs
    /\ onLoad (store s')
       = match firstInvalid (clock w) (formData r) (Z.to_nat steps_length) 0
         with
         | Some _ => onLoad (store s)
         | None => false
         end.
Proof.
  destruct (firstInvalid (clock w) (formData r) (Z.to_nat steps_length) 0)
    as [k|] eqn:E.
  - rewrite (handleSubmit_invalid _ _ _ _ E). eexists _, [].
    cbn. rewrite app_nil_r. auto.
  - destruct (paymentCompleted r) eqn:Hp.
    + rewrite (handleSubmit_paid _ _ _ E Hp). eexists _, _.
      split; [reflexivity|]. cbn. auto.
    + rewrite (handleSubmit_unpaid _ _ _ E Hp). eexists _, _.
      split; [reflexivity|]. cbn. auto.
Qed.

Lemma one_order_across_retries_witness :
  exists evs,
    log (session (Submit (sampleWorld (HttpStatus 409)) (Pays sampleReceipt)
                  :: [Change Femail (js "asha2@example.org");
                      Submit (sampleWorld NoResponse) LeavesOpen;
                      Submit (sampleWorld (HttpStatus 500)) LeavesOpen])
           (start sampleState)) = [] ++ evs
    /\ filter (fun e => isCreateOrder e = true) evs
       = [CreateOrder (orderRequest (sampleWorld (HttpStatus 409)))]
    /\ filter (fun e => isVerify e = true) evs = [VerifyPayment sampleReceipt].
Proof.
  apply (one_order_across_retries (sampleWorld (HttpStatus 409))
           (mkVerification true (js "Payment verified") None None)
           sampleReceipt
           [Change Femail (js "asha2@example.org");
            Submit (sampleWorld NoResponse) LeavesOpen;
            Submit (sampleWorld (HttpStatus 500)) LeavesOpen]
           (start sampleState)).
  - reflexivity.
  - reflexivity.
  - apply allValid_firstInvalid. vm_compute. reflexivity.
  - discriminate.
  - reflexivity.
  - discriminate.
  - repeat (apply Forall_cons; split; [cbn; try exact I; discriminate|]).
    apply Forall_nil. exact I.
Defined.

Lemma opened_no_alert w d :
  openedCheckout w d <> None ->
  filter (fun e => isAlert e = true) (unpaidEvents w) = [].
Proof.
  unfold openedCheckout, unpaidEvents.
  destruct (scriptLoads w); [|congruence].
  destruct (keyReply w) as [[[|? ?]|]|?]; try congruence.
  destruct (orderReply w) as [data|?]; try congruence.
  destruct (reply_success data); [reflexivity | congruence].
Qed.

(** X20. When the commit of a settled attempt on a valid record answers 409,
    on the first attempt as on a retry, the wizard goes to step 1 with the
    email error as its only error, the payment flag is set, the success
    modal and the record are untouched, the busy indicator is false and no
    alert is raised. *)
Theorem duplicate_email_returns_to_email_step
    (w : World) (u : UserChoice) (s : Sys) :
  widget s = None ->
  allValid (clock w) (formData (store s)) ->
  paymentSettled w u s ->
  commitOutcome w = DuplicateEmail ->
  currentStep (store (snd (act (Submit w u) s))) = 1
  /\ errors (store (snd (act (Submit w u) s)))
     = {["email" := "This email is already registered"]}
  /\ paymentCompleted (store (snd (act (Submit w u) s))) = true
  /\ showSuccessModal (store (snd (act (Submit w u) s)))
     = showSuccessModal (store s)
  /\ formData (store (snd (act (Submit w u) s))) = formData (store s)
  /\ onLoad (store (snd (act (Submit w u) s))) = false
  /\ exists evs,
       log (snd (act (Submit w u) s)) = log s ++ evs
       /\ filter (fun e => isAlert e = true) evs = [].
Proof.
  intros Hw Hv Hs Hc. apply allValid_firstInvalid in Hv.
  rewrite commitOutcome_axios in Hc.
  destruct Hs as [Hp|(Hp & [resp ->] & [v Ev] & Ho)].
  - rewrite (submit_paid w u s Hp Hw), Hv. cbn [store log].
    destruct (axios_post (commitReply w)) as [c|[c|]|m|m]; try discriminate.
    unfold paidStore. destruct (c =? 409); [|discriminate]. store_fields.
    split; [reflexivity|]. split; [apply insert_empty|].
    split; [exact Hp|]. repeat (split; [reflexivity|]).
    eexists. split; reflexivity.
  - rewrite (submit_unpaid w (Pays resp) s Hv Hp Hw).
    pose proof (opened_no_alert w _ Ho) as Hna.
    destruct (openedCheckout w _) as [c0|]; [|congruence].
    rewrite handler_run, Ev. cbn [snd store log].
    destruct (axios_post (commitReply w)) as [c|[c|]|m|m]; try discriminate.
    unfold handlerStore. destruct (c =? 409); [|discriminate]. store_fields.
    split; [reflexivity|]. split; [apply insert_empty|].
    repeat (split; [reflexivity|]).
    eexists. split; [rewrite <- app_assoc; reflexivity|].
    rewrite filter_app, Hna. reflexivity.
Qed.

Lemma duplicate_email_returns_to_email_step_witness :
  currentStep
    (store (snd (act (Submit (sampleWorld (HttpStatus 409))
                        (Pays sampleReceipt)) (start sampleState)))) = 1
  /\ errors
       (store (snd (act (Submit (sampleWorld (HttpStatus 409))
                           (Pays sampleReceipt)) (start sampleState))))
     = {["email" := "This email is already registered"]}.
Proof.
  destruct (duplicate_email_returns_to_email_step
              (sampleWorld (HttpStatus 409)) (Pays sampleReceipt)
              (start sampleState)) as (H1 & H2 & _).
  - reflexivity.
  - apply allValid_firstInvalid. vm_compute. reflexivity.
  - right. split; [reflexivity|]. split; [eexists; reflexivity|].
    split; [eexists; reflexivity | discriminate].
  - reflexivity.
  - split; [exact H1 | exact H2].
Defined.

(** X21. When the commit of a settled attempt on a valid record fails with
    anything but 409, nothing tells the user: the step, the success modal
    and the record are as before, the error map is empty, the busy
    indicator is false and the payment flag is set; an alert is raised only
    if the failure was no axios error. *)
Theorem failed_commit_shows_nothing
    (w : World) (u : UserChoice) (s : Sys) :
  widget s = None ->
  allValid (clock w) (formData (store s)) ->
  paymentSettled w u s ->
  commitOutcome w = TransportFailure ->
  currentStep (store (snd (act (Submit w u) s))) = currentStep (store s)
  /\ errors (store (snd (act (Submit w u) s))) = ∅
  /\ paymentCompleted (store (snd (act (Submit w u) s))) = true
  /\ showSuccessModal (store (snd (act (Submit w u) s)))
     = showSuccessModal (store s)
  /\ formData (store (snd (act (Submit w u) s))) = formData (store s)
  /\ onLoad (store (snd (act (Submit w u) s))) = false
  /\ exists evs,
       log (snd (act (Submit w u) s)) = log s ++ evs
       /\ filter (fun e => isAlert e = true) evs
          = match commitReply w with
            | RaisedError m => [Alert m]
            | RaisedValue m => [Alert m]
            | _ => []
            end.
Proof.
  intros Hw Hv Hs Hc. apply allValid_firstInvalid in Hv.
  unfold commitOutcome in Hc.
  destruct Hs as [Hp|(Hp & [resp ->] & [v Ev] & Ho)].
  - rewrite (submit_paid w u s Hp Hw), Hv. cbn [store log].
    unfold axios_post.
    destruct (commitReply w) as [c| |m|m];
      [destruct ((200 <=? c) && (c <? 300)); [discriminate|];
       unfold paidStore; destruct (c =? 409); [discriminate|]|..];
      store_fields; cbn [paidStore];
      (split; [reflexivity|]); (split; [reflexivity|]);
      (split; [exact Hp|]); repeat (split; [reflexivity|]);
      eexists; split; reflexivity.
  - rewrite (submit_unpaid w (Pays resp) s Hv Hp Hw).
    pose proof (opened_no_alert w _ Ho) as Hna.
    destruct (openedCheckout w _) as [c0|]; [|congruence].
    rewrite handler_run, Ev. cbn [snd store log].
    unfold axios_post.
    destruct (commitReply w) as [c| |m|m];
      [destruct ((200 <=? c) && (c <? 300)); [discriminate|];
       unfold handlerStore; destruct (c =? 409); [discriminate|]|..];
      store_fields; cbn [handlerStore];
      repeat (split; [reflexivity|]);
      eexists; (split; [rewrite <- app_assoc; reflexivity|]);
      rewrite filter_app, Hna; reflexivity.
Qed.

Lemma failed_commit_shows_nothing_witness :
  errors (store (snd (act (Submit (sampleWorld (HttpStatus 500)) LeavesOpen)
                        paidSys))) = ∅
  /\ paymentCompleted
       (store (snd (act (Submit (sampleWorld (HttpStatus 500)) LeavesOpen)
                      paidSys))) = true.
Proof.
  destruct (failed_commit_shows_nothing (sampleWorld (HttpStatus 500))
              LeavesOpen paidSys) as (_ & H2 & H3 & _).
  - reflexivity.
  - apply allValid_firstInvalid. vm_compute. reflexivity.
  - left. reflexivity.
  - reflexivity.
  - split; [exact H2 | exact H3].
Defined.

(** *** Dates west of UTC *)

Lemma prevDay_nextDay x : validDate x = true -> prevDay (nextDay x) = x.
Proof.
  destruct x as [y m d]. unfold validDate, nextDay, prevDay.
  cbn [getFullYear getMonth getDate]. intros H.
  apply andb_true_iff in H as [H H4]. apply andb_true_iff in H as [H H3].
  apply andb_true_iff in H as [H1 H2].
  apply Z.leb_le in H1, H2, H3, H4.
  destruct (d <? daysInMonth y m) eqn:E1; cbn [getFullYear getMonth getDate].
  - assert ((1 <? d + 1) = true) as -> by (apply Z.ltb_lt; lia).
    f_equal. lia.
  - apply Z.ltb_ge in E1.
    destruct (m <? 11) eqn:E2; cbn [getFullYear getMonth getDate].
    + apply Z.ltb_lt in E2.
      assert ((0 <? m + 1) = true) as -> by (apply Z.ltb_lt; lia).
      cbn. replace (m + 1 - 1) with m by lia. f_equal. lia.
    + apply Z.ltb_ge in E2. assert (m = 11) as -> by lia.
      cbn in *. f_equal; lia.
Qed.

(** X24. In a browser whose local time is west of UTC, the birth date
    entered in the date field is read back as the day before it, and the
    5-to-25 test is applied to that day: an applicant one day short of 5
    years passes, and an applicant who turns 26 tomorrow is rejected. *)
Theorem dob_west_of_utc_reads_day_before
    (h : Host) (dob : jsstring) (born : DateFields) :
  (forall t, -1440 < offsetAt h t < 0) ->
  isoDateOnly dob = Some born ->
  newDate (hostClock h) dob = Some (prevDay born)
  /\ (validateDateOfBirth (hostClock h) dob = true
      <-> 5 <= ageOn (today (hostClock h)) (prevDay born) <= 25)
  /\ (validDate (yearsBefore 5 (today (hostClock h))) = true ->
      born = nextDay (yearsBefore 5 (today (hostClock h))) ->
      validateDateOfBirth (hostClock h) dob = true)
  /\ (validDate (yearsBefore 26 (today (hostClock h))) = true ->
      born = nextDay (yearsBefore 26 (today (hostClock h))) ->
      validateDateOfBirth (hostClock h) dob = false).
Proof.
  intros Hoff Hiso.
  assert (newDate (hostClock h) dob = Some (prevDay born)) as Hnew.
  { cbn [hostClock newDate]. rewrite Hiso.
    unfold localDate. cbn [utcMs utcDay].
    specialize (Hoff (mkInstant born 0)).
    assert ((0 + offsetAt h (mkInstant born 0) * 60000 <? 0) = true) as ->
      by (apply Z.ltb_lt; lia).
    reflexivity. }
  split; [exact Hnew|].
  rewrite (validateDateOfBirth_age _ _ _ Hnew).
  split; [rewrite andb_true_iff, Z.leb_le, Z.leb_le; tauto|].
  split; intros Hv ->; rewrite (prevDay_nextDay _ Hv), ageOn_yearsBefore;
    reflexivity.
Qed.

Lemma dob_west_of_utc_reads_day_before_witness :
  today (hostClock westHost) = mkDate 2026 10 2
  /\ validateDateOfBirth (hostClock westHost) (js "2021-11-03") = true
  /\ validateDateOfBirth (hostClock westHost) (js "2000-11-03") = false.
Proof.
  split; [reflexivity|]. split.
  - destruct (dob_west_of_utc_reads_day_before westHost (js "2021-11-03")
                (mkDate 2021 10 3)) as (_ & _ & H & _).
    + intros t. cbn. lia.
    + reflexivity.
    + apply H; reflexivity.
  - destruct (dob_west_of_utc_reads_day_before westHost (js "2000-11-03")
                (mkDate 2000 10 3)) as (_ & _ & _ & H).
    + intros t. cbn. lia.
    + reflexivity.
    + apply H; reflexivity.
Defined.
